(** * Arovia Health Desk: the browser front end, embedded and verified

    The development follows the TypeScript sources of the front end:

    - [types.ts]           the data exchanged with the backend,
    - [App]                the application state and the submit handler
                           (listed after the resources of i18n.ts),
    - [TriageForm], [Dashboard]   the two symptom forms,
    - [Results]            the results page (listed after [Dashboard]),
    - [Facilities]         the facilities page,
    - [AroviaHealthDesk]   the single-page variant of the desk,
    - [VoiceInput]         the voice page and its recorder,
    - [Disclaimer]         the splash screen and the footer,
    - i18n.ts              the translation resources,
    - the README's emergency keyword table.

    The backend (triage agent, facility matcher) is not part of these
    sources; where a property rests on it, it is modelled from what the
    repository's documentation says, and marked so.

    JavaScript strings are sequences of UTF-16 code units, numbers that
    arrive through JSON are finite and are taken as rationals ([Qc]):
    the code only ever compares them.  Handlers are written in a small
    state-and-exception monad over the React state, the browser route
    and the trace of HTTP requests. *)

From Stdlib Require Import QArith Qcanon Lqa DecimalString DecimalNat.
From stdpp Require Import base decidable option list numbers strings sorting
  gmap.

Set Default Proof Using "Type".
Open Scope Qc_scope.

(** ** JavaScript values *)

Module JS.

(** A string is a sequence of UTF-16 code units. *)
Definition code_unit := N.
Definition js_string := list code_unit.

(** A literal of the source text (all of them are ASCII). *)
Definition lit (s : string) : js_string :=
  Ascii.N_of_ascii <$> String.list_ascii_of_string s.

(** Numbers: integer literals of the source. *)
Definition num (z : Z) : Qc := Q2Qc (inject_Z z).

(** Truthiness of a string: every string but the empty one. *)
Definition truthy (s : js_string) : bool :=
  match s with [] => false | _ :: _ => true end.

(** Truthiness of [string | null | undefined]. *)
Definition truthy_opt (o : option js_string) : bool :=
  match o with Some s => truthy s | None => false end.

(** [s || undefined] *)
Definition or_undefined (s : js_string) : option js_string :=
  if truthy s then Some s else None.

(** [o || undefined] for an optional string. *)
Definition opt_or_undefined (o : option js_string) : option js_string :=
  if truthy_opt o then o else None.

(** ECMAScript WhiteSpace and LineTerminator code points, the ones
    [String.prototype.trim] strips. *)
Definition is_white_space (c : code_unit) : bool :=
  bool_decide (c ∈ [9; 10; 11; 12; 13; 32; 160; 5760; 8232; 8233; 8239;
                    8287; 12288; 65279]%N)
  || ((8192 <=? c)%N && (c <=? 8202)%N).

Fixpoint trimStart (s : js_string) : js_string :=
  match s with
  | [] => []
  | c :: s' => if is_white_space c then trimStart s' else s
  end.

Definition trimEnd (s : js_string) : js_string :=
  reverse (trimStart (reverse s)).

Definition trim (s : js_string) : js_string := trimEnd (trimStart s).

(** Empty, or made of white space only. *)
Definition whitespace_only (s : js_string) : bool :=
  forallb is_white_space s.

(** [text.startsWith(p)] *)
Fixpoint startsWith (p text : js_string) : bool :=
  match p, text with
  | [], _ => true
  | _ :: _, [] => false
  | a :: p', b :: text' => (a =? b)%N && startsWith p' text'
  end.

(** [text.includes(p)] *)
Fixpoint includes (p text : js_string) : bool :=
  startsWith p text ||
  match text with
  | [] => false
  | _ :: text' => includes p text'
  end.

(** JSON values the front end sends. *)
#[warnings="-register-all"] Inductive JSON :=
| JNull
| JNumber (q : Qc)
| JString (s : js_string)
| JObject (fields : list (string * JSON)).

(** An object literal handed to [JSON.stringify]: properties whose
    value is [undefined] are left out of the serialised object. *)
Definition stringify_object (props : list (string * option JSON)) : JSON :=
  JObject (omap (λ p, (p.1,.) <$> p.2) props).

End JS.

Import JS.

(** ** types.ts *)

Module Symptom.
Inductive severity_t := mild | moderate | severe.
Record t := {
  name : js_string;
  severity : severity_t;
  duration : option js_string;
  associated_symptoms : option (list js_string)
}.
End Symptom.

Module RedFlag.
Inductive urgency_level_t := immediate | urgent.
Record t := {
  flag_type : js_string;
  description : js_string;
  urgency_level : urgency_level_t;
  action_required : js_string
}.
End RedFlag.

Module PotentialRisk.
Inductive probability_t := low | medium | high.
Record t := {
  condition : js_string;
  probability : probability_t;
  specialty_needed : js_string
}.
End PotentialRisk.

Module TriageResult.
Inductive triage_category_t := emergency | urgent | standard.
Record t := {
  chief_complaint : js_string;
  symptoms : list Symptom.t;
  urgency_score : Qc;
  red_flags : list RedFlag.t;
  potential_risks : list PotentialRisk.t;
  recommended_specialty : js_string;
  triage_category : triage_category_t;
  emergency_detected : bool;
  action_required : js_string;
  timestamp : js_string
}.
End TriageResult.

Module Facility.
Inductive facility_type_t := government | private | ngo | local.
Record coordinates_t := { latitude : Qc; longitude : Qc }.
Record t := {
  name : js_string;
  address : js_string;
  distance_km : Qc;
  facility_type : facility_type_t;
  services : list js_string;
  specialty_match : js_string;
  map_link : js_string;
  contact : option js_string;
  coordinates : coordinates_t
}.
End Facility.

(** ** HTTP: requests, replies and the backend as the front end sees it *)

Module Http.

Record request := {
  url : string;
  method : string;
  headers : list (string * string);
  body : JSON
}.

(** What [fetch] brings back.  The promise is either rejected (the
    network failed: a [TypeError] with a message) or fulfilled with a
    response, whose [ok] flag tells a 2xx status and whose body
    [response.json()] either parses (right) or rejects with a
    [SyntaxError] (left, its message). *)
Inductive reply (A : Type) :=
| Rejected (message : js_string)
| Responded (ok : bool) (parsed : js_string + A).
Global Arguments Rejected {A} message.
Global Arguments Responded {A} ok parsed.

Record response (A : Type) := {
  ok : bool;
  parsed : js_string + A
}.
Global Arguments ok {A} _.
Global Arguments parsed {A} _.

(** The two endpoints of the backend that the handlers below call,
    each with the type TypeScript gives to its parsed body. *)
Record backend := {
  triage_text : request → reply TriageResult.t;
  facilities : request → reply (list Facility.t)
}.

End Http.

(** ** Effects of a handler

    A handler runs against a world: the component state [S], the router's
    current path and the trace of requests sent so far.  It ends normally
    or with a thrown value. *)

Module Eff.

Inductive thrown :=
| ErrorObject (message : js_string)   (* [err instanceof Error] *)
| OtherValue.

Record world (S : Type) := {
  state : S;
  route : string;
  requests : list Http.request
}.
Global Arguments state {S} _.
Global Arguments route {S} _.
Global Arguments requests {S} _.

Definition M (S A : Type) : Type := world S → (thrown + A) * world S.

Definition ret {S A} (a : A) : M S A := λ w, (inr a, w).

Definition bind {S A B} (m : M S A) (k : A → M S B) : M S B :=
  λ w, match m w with
       | (inr a, w') => k a w'
       | (inl e, w') => (inl e, w')
       end.

Definition throw {S A} (e : thrown) : M S A := λ w, (inl e, w).

(** [try { body } catch (err) { handler } finally { fin }] *)
Definition try_catch_finally {S}
    (body : M S unit) (handler : thrown → M S unit) (fin : M S unit)
    : M S unit :=
  λ w, match body w with
       | (inr tt, w1) => fin w1
       | (inl err, w1) =>
           match handler err w1 with
           | (r, w2) =>
               match fin w2 with
               | (inr tt, w3) => (r, w3)
               | (inl e, w3) => (inl e, w3)
               end
           end
       end.

Definition get {S} : M S S := λ w, (inr (state w), w).

Definition modify {S} (f : S → S) : M S unit :=
  λ w, (inr tt, {| state := f (state w); route := route w;
                   requests := requests w |}).

(** [navigate(path)] of react-router. *)
Definition navigate {S} (path : string) : M S unit :=
  λ w, (inr tt, {| state := state w; route := path;
                   requests := requests w |}).

(** [await fetch(url, init)]: the request goes on the trace, then the
    server's reply decides between a response and a rejection. *)
Definition fetch {S A} (server : Http.request → Http.reply A)
    (req : Http.request) : M S (Http.response A) :=
  λ w, let w' := {| state := state w; route := route w;
                    requests := requests w ++ [req] |} in
       match server req with
       | Http.Rejected m => (inl (ErrorObject m), w')
       | Http.Responded ok parsed =>
           (inr {| Http.ok := ok; Http.parsed := parsed |}, w')
       end.

(** [await response.json()] *)
Definition json {S A} (r : Http.response A) : M S A :=
  match Http.parsed r with
  | inl m => throw (ErrorObject m)
  | inr a => ret a
  end.

Definition when {S} (b : bool) (m : M S unit) : M S unit :=
  if b then m else ret tt.

(** An [async] function called without [await]: the caller goes on at
    once and whatever the function throws stays in its promise.  The
    world once the promise has settled is the one the function leaves
    behind. *)
Definition detached {S A} (m : M S A) : M S unit :=
  λ w, (inr (), (m w).2).

(** The world a handler leaves behind, and the requests it sent. *)
Definition after {S A} (m : M S A) (w : world S) : world S := (m w).2.

Definition issued {S A} (m : M S A) (w : world S) : list Http.request :=
  drop (length (requests w)) (requests (after m w)).

End Eff.

Import Eff.

Notation "x <- m ;; k" := (Eff.bind m (λ x, k))
  (at level 100, m at next level, right associativity,
   format "'[v' x  <-  m  ;;  '/' k ']'").
Notation "m ;;; k" := (Eff.bind m (λ _, k))
  (at level 100, right associativity,
   format "'[v' m  ;;;  '/' k ']'").

(** ** App: the application state and the submit handler *)

Module App.

Definition API_BASE_URL : string := "http://localhost:8000".

Record AppState := {
  triageResult : option TriageResult.t;
  facilities : list Facility.t;
  loading : bool;
  error : option js_string
}.

(** The initial values of the four [useState] hooks. *)
Definition initial : AppState :=
  {| triageResult := None; facilities := []; loading := false;
     error := None |}.

Definition setTriageResult (r : option TriageResult.t) : M AppState unit :=
  modify (λ s, {| triageResult := r; facilities := facilities s;
                  loading := loading s; error := error s |}).

Definition setFacilities (l : list Facility.t) : M AppState unit :=
  modify (λ s, {| triageResult := triageResult s; facilities := l;
                  loading := loading s; error := error s |}).

Definition setLoading (b : bool) : M AppState unit :=
  modify (λ s, {| triageResult := triageResult s;
                  facilities := facilities s;
                  loading := b; error := error s |}).

Definition setError (e : option js_string) : M AppState unit :=
  modify (λ s, {| triageResult := triageResult s;
                  facilities := facilities s;
                  loading := loading s; error := e |}).

Definition json_headers : list (string * string) :=
  [("Content-Type", "application/json")].

(** The request of [fetch(`${API_BASE_URL}/triage/text`, ...)]. *)
Definition triage_request (symptoms : js_string)
    (location : option js_string) : Http.request :=
  {| Http.url := API_BASE_URL +:+ "/triage/text";
     Http.method := "POST";
     Http.headers := json_headers;
     Http.body := stringify_object
       [("symptoms", Some (JString symptoms));
        ("location", JString <$> opt_or_undefined location)] |}.

(** The request of [fetch(`${API_BASE_URL}/facilities`, ...)]. *)
Definition facilities_request (location : option js_string)
    : Http.request :=
  {| Http.url := API_BASE_URL +:+ "/facilities";
     Http.method := "POST";
     Http.headers := json_headers;
     Http.body := stringify_object [("location", JString <$> location)] |}.

(** Does a request go to the facilities endpoint? *)
Definition to_facilities (q : Http.request) : bool :=
  bool_decide (Http.url q = API_BASE_URL +:+ "/facilities").

Definition handleTriageSubmit (net : Http.backend)
    (symptoms : js_string) (location : option js_string)
    : M AppState unit :=
  setLoading true ;;;
  setError None ;;;
  try_catch_finally
    (response <- fetch (Http.triage_text net)
                       (triage_request symptoms location) ;;
     when (negb (Http.ok response))
          (throw (ErrorObject (lit "Failed to analyze symptoms"))) ;;;
     result <- json response ;;
     setTriageResult (Some result) ;;;
     (* If location is provided, also fetch facilities *)
     when (truthy_opt location)
          (facilitiesResponse <- fetch (Http.facilities net)
                                       (facilities_request location) ;;
           when (Http.ok facilitiesResponse)
                (facilitiesData <- json facilitiesResponse ;;
                 setFacilities facilitiesData)))
    (λ err, setError (Some match err with
                           | ErrorObject message => message
                           | OtherValue => lit "An error occurred"
                           end))
    (setLoading false).

End App.

(** ** TriageForm and Dashboard: the two symptom forms

    Both keep the text of the two inputs in their own state and hand the
    trimmed values to the [onSubmit] / [onTriageSubmit] property. *)

Module TriageForm.

Definition handleSubmit {S}
    (onSubmit : js_string → option js_string → M S unit)
    (symptoms location : js_string) : M S unit :=
  (* e.preventDefault() *)
  when (truthy (trim symptoms))
       (onSubmit (trim symptoms) (or_undefined (trim location)) ;;;
        navigate "/results").

End TriageForm.

Module Dashboard.

Definition handleSubmit {S}
    (onTriageSubmit : js_string → option js_string → M S unit)
    (symptoms location : js_string) : M S unit :=
  (* e.preventDefault() *)
  when (truthy (trim symptoms))
       (onTriageSubmit (trim symptoms) (or_undefined (trim location))).

End Dashboard.

(** The routes of [App] wire both forms to [handleTriageSubmit], an
    [async] function that the forms call without awaiting it. *)
Module Routes.

Definition triage_form_submit (net : Http.backend)
    (symptoms location : js_string) : M App.AppState unit :=
  TriageForm.handleSubmit
  (λ symptoms location,
     detached (App.handleTriageSubmit net symptoms location))
  symptoms location.

Definition dashboard_submit (net : Http.backend)
    (symptoms location : js_string) : M App.AppState unit :=
  Dashboard.handleSubmit
  (λ symptoms location,
     detached (App.handleTriageSubmit net symptoms location))
  symptoms location.

End Routes.

(** ** Results: the results page *)

Module Results.

Record ResultsProps := {
  triageResult : option TriageResult.t;
  facilities : list Facility.t;
  loading : bool;
  error : option js_string
}.

Definition getUrgencyColor (score : Qc) : string :=
  if bool_decide (num 9 ≤ score) then "text-red-600 bg-red-100"
  else if bool_decide (num 7 ≤ score) then "text-yellow-600 bg-yellow-100"
  else "text-green-600 bg-green-100".

Definition getUrgencyText (score : Qc) : string :=
  if bool_decide (num 9 ≤ score) then "IMMEDIATE"
  else if bool_decide (num 7 ≤ score) then "URGENT"
  else "STANDARD".

(** One rendered entry of the facilities block. *)
Record facility_card := {
  card_name : js_string;
  card_distance_km : Qc;
  card_address : js_string;
  card_specialty_match : js_string;
  card_facility_type : Facility.facility_type_t;
  card_contact : option js_string     (* [facility.contact && ...] *)
}.

Definition render_facility (facility : Facility.t) : facility_card :=
  {| card_name := Facility.name facility;
     card_distance_km := Facility.distance_km facility;
     card_address := Facility.address facility;
     card_specialty_match := Facility.specialty_match facility;
     card_facility_type := Facility.facility_type facility;
     card_contact := opt_or_undefined (Facility.contact facility) |}.

Definition probability_class (p : PotentialRisk.probability_t) : string :=
  match p with
  | PotentialRisk.high => "bg-red-100 text-red-800"
  | PotentialRisk.medium => "bg-yellow-100 text-yellow-800"
  | PotentialRisk.low => "bg-green-100 text-green-800"
  end.

(** The blocks the page is made of, top to bottom. *)
Inductive block :=
| AnalyzingSymptoms                       (* the spinner *)
| AnalysisError (message : js_string)     (* with "Try Again" *)
| NoResults                               (* with "Start Assessment" *)
| Header (urgency_class urgency_text : string) (urgency_score : Qc)
         (recommended_specialty : js_string)
         (emergency_class emergency_text : string)
         (chief_complaint : js_string)
| RedFlagsDetected (flags : list RedFlag.t)
| PotentialRisks (risks : list (PotentialRisk.t * string))
| Recommendations (action_required : js_string)
| EmergencyDetected                       (* "CALL 108 IMMEDIATELY" *)
| NearbyFacilities (cards : list facility_card).

Definition Results (props : ResultsProps) : list block :=
  if loading props then [AnalyzingSymptoms]
  else match error props with
  | Some (c :: message) => [AnalysisError (c :: message)]
  | _ =>
  match triageResult props with
  | None => [NoResults]
  | Some triageResult =>
      [Header (getUrgencyColor (TriageResult.urgency_score triageResult))
              (getUrgencyText (TriageResult.urgency_score triageResult))
              (TriageResult.urgency_score triageResult)
              (TriageResult.recommended_specialty triageResult)
              (if TriageResult.emergency_detected triageResult
               then "text-red-600" else "text-green-600")
              (if TriageResult.emergency_detected triageResult
               then "YES" else "NO")
              (TriageResult.chief_complaint triageResult)]
      ++ (if bool_decide
               (0 < length (TriageResult.red_flags triageResult))%nat
          then [RedFlagsDetected (TriageResult.red_flags triageResult)]
          else [])
      ++ (if bool_decide
               (0 < length (TriageResult.potential_risks triageResult))%nat
          then [PotentialRisks
                  ((λ risk, (risk, probability_class
                                     (PotentialRisk.probability risk)))
                   <$> TriageResult.potential_risks triageResult)]
          else [])
      ++ [Recommendations (TriageResult.action_required triageResult)]
      ++ (if TriageResult.emergency_detected triageResult
          then [EmergencyDetected] else [])
      ++ (if bool_decide (0 < length (facilities props))%nat
          then [NearbyFacilities
                  (render_facility <$> take 3 (facilities props))]
          else [])
  end
  end.

(** The page shows a triage result: none of the three early returns
    is taken. *)
Definition shows_result (props : ResultsProps) : bool :=
  negb (loading props) && negb (truthy_opt (error props))
  && bool_decide (is_Some (triageResult props)).

(** Is the "EMERGENCY DETECTED" alert on a rendered page? *)
Definition shows_emergency_alert (page : list block) : bool :=
  existsb (λ b, match b with EmergencyDetected => true | _ => false end)
          page.

(** The red flags listed on a rendered page. *)
Definition listed_red_flags (page : list block) : list RedFlag.t :=
  page ≫= λ b, match b with RedFlagsDetected flags => flags | _ => [] end.

(** The facility cards on a rendered page, in display order. *)
Definition facility_cards (page : list block) : list facility_card :=
  page ≫= λ b, match b with NearbyFacilities cards => cards | _ => [] end.

(** The urgency badge on a rendered page, if there is one. *)
Definition urgency_badge (page : list block) : option (string * string) :=
  head (page ≫= λ b, match b with
                      | Header c t _ _ _ _ _ => [(c, t)]
                      | _ => []
                      end).

(** The page [App] shows on the route [/results]. *)
Definition of_app (s : App.AppState) : ResultsProps :=
  {| triageResult := App.triageResult s;
     facilities := App.facilities s;
     loading := App.loading s;
     error := App.error s |}.

End Results.

(** ** Facilities: the facilities page *)

Module Facilities.

Definition getFacilityTypeColor (type : Facility.facility_type_t) : string :=
  match type with
  | Facility.government => "bg-blue-100 text-blue-800"
  | Facility.private => "bg-green-100 text-green-800"
  | Facility.ngo => "bg-yellow-100 text-yellow-800"
  | _ => "bg-gray-100 text-gray-800"
  end.

(** One entry of the list: the facility, whether it carries the
    "Recommended" badge ([index === 0]) and its priority number
    ([index + 1]). *)
Record entry := {
  facility : Facility.t;
  type_color : string;
  recommended : bool;
  priority : nat
}.

Inductive page :=
| FindingFacilities                              (* [loading] *)
| Found (count : nat) (entries : list entry)     (* "Sorted by distance" *)
| NoFacilitiesFound.

Definition render_entries (filteredFacilities : list Facility.t)
    : list entry :=
  imap (λ index facility,
          {| facility := facility;
             type_color :=
               getFacilityTypeColor (Facility.facility_type facility);
             recommended := bool_decide (index = 0%nat);
             priority := index + 1 |})
       filteredFacilities.

Definition Facilities (filteredFacilities : list Facility.t)
    (loading : bool) : page :=
  if loading then FindingFacilities
  else if bool_decide (0 < length filteredFacilities)%nat
  then Found (length filteredFacilities) (render_entries filteredFacilities)
  else NoFacilitiesFound.

End Facilities.

(** ** AroviaHealthDesk: the single-page variant *)

Module HealthDesk.

Record Coordinates := { latitude : js_string; longitude : js_string }.

(** The state the text-triage tab reads and writes. *)
Record DeskState := {
  loading : bool;
  result : option TriageResult.t;
  error : option js_string;
  textSymptoms : js_string;
  location : js_string;
  coordinates : Coordinates
}.

Definition apiBaseUrl : string := "http://localhost:8000".

Definition setLoading (b : bool) : M DeskState unit :=
  modify (λ s, {| loading := b; result := result s; error := error s;
                  textSymptoms := textSymptoms s; location := location s;
                  coordinates := coordinates s |}).

Definition setResult (r : option TriageResult.t) : M DeskState unit :=
  modify (λ s, {| loading := loading s; result := r; error := error s;
                  textSymptoms := textSymptoms s; location := location s;
                  coordinates := coordinates s |}).

Definition setError (e : option js_string) : M DeskState unit :=
  modify (λ s, {| loading := loading s; result := result s; error := e;
                  textSymptoms := textSymptoms s; location := location s;
                  coordinates := coordinates s |}).

Section handlers.

(** The built-in [parseFloat]; [None] is [NaN], which
    [JSON.stringify] writes as [null]. *)
Variable parseFloat : js_string → option Qc.

Definition number_json (s : js_string) : JSON :=
  match parseFloat s with Some q => JNumber q | None => JNull end.

Definition payload (s : DeskState) : JSON :=
  stringify_object
    [("symptoms", Some (JString (textSymptoms s)));
     ("location", JString <$> or_undefined (location s));
     ("coordinates",
      if truthy (latitude (coordinates s))
         && truthy (longitude (coordinates s))
      then Some (JObject
             [("latitude", number_json (latitude (coordinates s)));
              ("longitude", number_json (longitude (coordinates s)))])
      else None)].

Definition triage_request (s : DeskState) : Http.request :=
  {| Http.url := apiBaseUrl +:+ "/triage/text";
     Http.method := "POST";
     Http.headers := [("Content-Type", "application/json")];
     Http.body := payload s |}.

Definition handleTextTriage (net : Http.backend) : M DeskState unit :=
  s <- get ;;
  if negb (truthy (trim (textSymptoms s))) then
    setError (Some (lit "Please enter your symptoms"))
    (* return *)
  else
    setLoading true ;;;
    setError None ;;;
    setResult None ;;;
    try_catch_finally
      (response <- fetch (Http.triage_text net) (triage_request s) ;;
       when (negb (Http.ok response))
            (throw (ErrorObject (lit "Failed to analyze symptoms"))) ;;;
       data <- json response ;;
       setResult (Some data))
      (λ err, setError match err with
                       | ErrorObject message => Some message
                       | OtherValue => None
                       end)
      (setLoading false).

End handlers.

(** The class of the urgency badge in [renderTriageResult]. *)
Definition urgency_badge_class (urgency_score : Qc) : string :=
  if bool_decide (num 8 ≤ urgency_score) then "bg-red-100 text-red-800"
  else if bool_decide (num 5 ≤ urgency_score)
  then "bg-yellow-100 text-yellow-800"
  else "bg-green-100 text-green-800".

End HealthDesk.

(** ** Severity classes

    Both renderers colour the urgency score red, yellow or green; the
    class names differ in shade only, so they are compared by colour. *)

Inductive severity_class := Red | Yellow | Green.

Definition severity_of_class (class : string) : option severity_class :=
  if bool_decide (class = "text-red-600 bg-red-100"
                  ∨ class = "bg-red-100 text-red-800") then Some Red
  else if bool_decide (class = "text-yellow-600 bg-yellow-100"
                       ∨ class = "bg-yellow-100 text-yellow-800")
  then Some Yellow
  else if bool_decide (class = "text-green-600 bg-green-100"
                       ∨ class = "bg-green-100 text-green-800")
  then Some Green
  else None.

(** ** The backend's safety rails, as far as the repository states them *)

Module Backend.

(** The README's table, category by category. *)
Definition EMERGENCY_KEYWORDS : list (string * list string) :=
  [("cardiac",
    ["chest pain"; "heart attack"; "crushing chest pressure";
     "pain radiating to arm/jaw"; "severe palpitations"]);
   ("neurological",
    ["stroke"; "face drooping"; "arm weakness"; "slurred speech";
     "sudden severe headache"; "loss of consciousness"; "seizure"]);
   ("respiratory",
    ["can't breathe"; "choking"; "severe shortness of breath";
     "blue lips"; "gasping for air"]);
   ("trauma",
    ["severe bleeding"; "head injury"; "broken bone visible";
     "penetrating wound"; "unconscious after injury"]);
   ("mental_health",
    ["suicide"; "want to die"; "self-harm"; "kill myself"]);
   ("other",
    ["severe abdominal pain"; "pregnancy + bleeding";
     "high fever in infant"; "allergic reaction + swelling"])].

(** Every phrase of the table, whatever its category. *)
Definition emergency_phrases : list string :=
  EMERGENCY_KEYWORDS ≫= snd.

(** Modelled from the spec: the keyword scan of the triage agent
    (agents/triage_agent.py is not among the sources).  The spec calls
    it "a fixed lookup-table scan over a static set of phrases": the
    symptom text is searched for each phrase of the table in turn. *)
Definition detect_emergency (text : js_string) : bool :=
  existsb (λ phrase, includes (lit phrase) text) emergency_phrases.

(** Modelled from the spec: the "keyword-based emergency override"
    applied to the result of the language model (the triage agent is
    not among the sources).  The README states its effect under the
    table: "If ANY keyword detected → Urgency = 10, Immediate
    escalation to 108".  The score becomes 10 and the result is marked
    as an emergency, the mark on which the front end tells to call 108;
    the other fields are left to the language model. *)
Definition emergency_override (text : js_string) (r : TriageResult.t)
    : TriageResult.t :=
  if detect_emergency text then
    {| TriageResult.chief_complaint := TriageResult.chief_complaint r;
       TriageResult.symptoms := TriageResult.symptoms r;
       TriageResult.urgency_score := num 10;
       TriageResult.red_flags := TriageResult.red_flags r;
       TriageResult.potential_risks := TriageResult.potential_risks r;
       TriageResult.recommended_specialty :=
         TriageResult.recommended_specialty r;
       TriageResult.triage_category := TriageResult.emergency;
       TriageResult.emergency_detected := true;
       TriageResult.action_required := TriageResult.action_required r;
       TriageResult.timestamp := TriageResult.timestamp r |}
  else r.

(** The order in which two facilities are listed. *)
Definition nearer (f g : Facility.t) : Prop :=
  Facility.distance_km f ≤ Facility.distance_km g.

Global Instance nearer_dec : RelDecision nearer.
Proof. intros f g. unfold nearer. apply _. Defined.

(** Modelled from the spec: the facility search
    (utils/facility_matcher.py is not among the sources).  The spec
    describes it as "a call to a mapping/geocoding service with
    straightforward distance sorting": whatever the mapping service
    found is returned sorted by [distance_km]. *)
Definition facility_search (found : list Facility.t) : list Facility.t :=
  merge_sort nearer found.

End Backend.

(** ** Sample data, for the examples below *)

Module Sample.

Definition headache : TriageResult.t :=
  {| TriageResult.chief_complaint := lit "Mild headache";
     TriageResult.symptoms :=
       [{| Symptom.name := lit "headache"; Symptom.severity := Symptom.mild;
           Symptom.duration := Some (lit "few hours");
           Symptom.associated_symptoms := None |}];
     TriageResult.urgency_score := num 2;
     TriageResult.red_flags := [];
     TriageResult.potential_risks := [];
     TriageResult.recommended_specialty := lit "General Medicine";
     TriageResult.triage_category := TriageResult.standard;
     TriageResult.emergency_detected := false;
     TriageResult.action_required := lit "Rest and hydration";
     TriageResult.timestamp := lit "2025-01-01T10:00:00" |}.

(** A result with a red flag of level [urgent] that the backend did
    not mark as an emergency. *)
Definition flagged : TriageResult.t :=
  {| TriageResult.chief_complaint := lit "Fever and cough for 3 days";
     TriageResult.symptoms := [];
     TriageResult.urgency_score := num 6;
     TriageResult.red_flags :=
       [{| RedFlag.flag_type := lit "respiratory";
           RedFlag.description := lit "breathing difficulty";
           RedFlag.urgency_level := RedFlag.urgent;
           RedFlag.action_required := lit "See a doctor within 24 hours" |}];
     TriageResult.potential_risks := [];
     TriageResult.recommended_specialty := lit "Pulmonology";
     TriageResult.triage_category := TriageResult.urgent;
     TriageResult.emergency_detected := false;
     TriageResult.action_required := lit "Visit a health center";
     TriageResult.timestamp := lit "2025-01-01T10:00:00" |}.

Definition clinic (name : string) (distance_km : Qc) : Facility.t :=
  {| Facility.name := lit name;
     Facility.address := lit "Main Road";
     Facility.distance_km := distance_km;
     Facility.facility_type := Facility.government;
     Facility.services := [lit "GP consultation"];
     Facility.specialty_match := lit "General Medicine";
     Facility.map_link := lit "https://www.openstreetmap.org/";
     Facility.contact := None;
     Facility.coordinates :=
       {| Facility.latitude := num 17; Facility.longitude := num 78 |} |}.

Definition four_clinics : list Facility.t :=
  [clinic "A" (num 1); clinic "B" (num 2); clinic "C" (num 3);
   clinic "D" (num 4)].

(** A backend that answers both endpoints with 200. *)
Definition backend_up : Http.backend :=
  {| Http.triage_text := λ _, Http.Responded true (inr headache);
     Http.facilities := λ _, Http.Responded true (inr four_clinics) |}.

(** A backend whose triage endpoint answers 500. *)
Definition backend_down : Http.backend :=
  {| Http.triage_text :=
       λ _, Http.Responded false (inl (lit "Unexpected token"));
     Http.facilities := λ _, Http.Responded true (inr four_clinics) |}.

(** The application right after it is loaded, on the triage form. *)
Definition fresh : world App.AppState :=
  {| state := App.initial; route := "/triage"; requests := [] |}.

(** The application after a first, successful submission with a
    location: a result and a facilities list are stored. *)
Definition served : world App.AppState :=
  after (Routes.triage_form_submit backend_up (lit "mild headache")
                                   (lit "Pune")) fresh.

(** The same application after a second submission, which the backend
    answered with an error: the old result and list are still stored. *)
Definition failed_again : world App.AppState :=
  after (Routes.triage_form_submit backend_down (lit "fever") (lit "Pune"))
        served.

(** The properties of the results page showing a given result. *)
Definition showing (r : TriageResult.t) (l : list Facility.t)
    : Results.ResultsProps :=
  {| Results.triageResult := Some r; Results.facilities := l;
     Results.loading := false; Results.error := None |}.

(** The desk with a blank symptom box. *)
Definition blank_desk : world HealthDesk.DeskState :=
  {| state :=
       {| HealthDesk.loading := false;
          HealthDesk.result := Some headache;
          HealthDesk.error := None;
          HealthDesk.textSymptoms := [32; 9; 10]%N;
          HealthDesk.location := lit "Hyderabad";
          HealthDesk.coordinates :=
            {| HealthDesk.latitude := []; HealthDesk.longitude := [] |} |};
     route := "/";
     requests := [] |}.

End Sample.

(** ** Facilities: the search form of the facilities page *)

Module FacilitiesPage.

(** The state of the component, with the errors it wrote to the
    console. *)
Record State := {
  searchLocation : js_string;
  filteredFacilities : list Facility.t;
  console : list thrown
}.

(** The first render: [useState('')] and [useState(facilities)]. *)
Definition mount (facilities : list Facility.t) : State :=
  {| searchLocation := []; filteredFacilities := facilities;
     console := [] |}.

Definition setSearchLocation (s : js_string) : M State unit :=
  modify (λ st, {| searchLocation := s;
                   filteredFacilities := filteredFacilities st;
                   console := console st |}).

Definition setFilteredFacilities (l : list Facility.t) : M State unit :=
  modify (λ st, {| searchLocation := searchLocation st;
                   filteredFacilities := l;
                   console := console st |}).

(** [console.error('Error searching facilities:', error)] *)
Definition console_error (error : thrown) : M State unit :=
  modify (λ st, {| searchLocation := searchLocation st;
                   filteredFacilities := filteredFacilities st;
                   console := console st ++ [error] |}).

(** The effect on [[facilities]]: a new list from [App] replaces the
    displayed one. *)
Definition on_facilities_change (facilities : list Facility.t)
    : M State unit :=
  setFilteredFacilities facilities.

(** [try { body } catch (error) { handler }] *)
Definition try_catch {S} (body : M S unit) (handler : thrown → M S unit)
    : M S unit :=
  λ w, match body w with
       | (inr tt, w1) => (inr tt, w1)
       | (inl error, w1) => handler error w1
       end.

Definition search_request (searchLocation : js_string) : Http.request :=
  {| Http.url := "http://localhost:8000/facilities";
     Http.method := "POST";
     Http.headers := [("Content-Type", "application/json")];
     Http.body :=
       stringify_object [("location", Some (JString searchLocation))] |}.

Definition handleSearch (net : Http.backend) : M State unit :=
  st <- get ;;
  (* e.preventDefault() *)
  if negb (truthy (trim (searchLocation st))) then ret tt (* return *)
  else
    try_catch
      (response <- fetch (Http.facilities net)
                         (search_request (searchLocation st)) ;;
       when (Http.ok response)
            (data <- json response ;;
             setFilteredFacilities data))
      (λ error, console_error error).

(** What the component shows. *)
Definition render (st : State) (loading : bool) : Facilities.page :=
  Facilities.Facilities (filteredFacilities st) loading.

End FacilitiesPage.

(** ** Reading a property of a JSON object *)

Module JSONObject.

(** [object[key]]: the first property of that name. *)
Fixpoint assoc (key : string) (fields : list (string * JSON))
    : option JSON :=
  match fields with
  | [] => None
  | (k, v) :: fields' =>
      if bool_decide (k = key) then Some v else assoc key fields'
  end.

Definition property (key : string) (j : JSON) : option JSON :=
  match j with JObject fields => assoc key fields | _ => None end.

End JSONObject.

(** ** The recording clock of the voice components *)

Module Clock.

(** [n.toString()] and [`${n}`] for a natural number: its decimal
    digits. *)
Definition toString (n : nat) : js_string :=
  lit (DecimalString.NilEmpty.string_of_uint (Nat.to_uint n)).

(** [s.padStart(targetLength, padString)] *)
Definition padStart (targetLength : nat) (padString s : js_string)
    : js_string :=
  if bool_decide (targetLength ≤ length s)%nat then s
  else take (targetLength - length s)
            (mjoin (replicate (targetLength - length s) padString))
       ++ s.

(** [formatTime] of the voice input page; [Math.floor(seconds / 60)] and
    [seconds % 60] on a count of seconds. *)
Definition formatTime (seconds : nat) : js_string :=
  let mins := (seconds / 60)%nat in
  let secs := (seconds mod 60)%nat in
  toString mins ++ lit ":" ++ padStart 2 (lit "0") (toString secs).

(** [formatDuration] of the desk, the same text under another name. *)
Definition formatDuration (seconds : nat) : js_string :=
  let mins := (seconds / 60)%nat in
  let secs := (seconds mod 60)%nat in
  toString mins ++ lit ":" ++ padStart 2 (lit "0") (toString secs).

(** Is a code unit one of the digits 0 to 9? *)
Definition is_digit (c : code_unit) : bool :=
  (48 <=? c)%N && (c <=? 57)%N.

End Clock.

(** ** Disclaimer: the splash screen and the footer *)

Module Disclaimer.

Record State := { isAccepted : bool; showFullInFooter : bool }.

(** The first render, before the effect runs; [sessionStorage] is a map
    from string keys to string values. *)
Definition initial : State :=
  {| isAccepted := false; showFullInFooter := false |}.

(** The effect run once after mounting: a session that has accepted
    before is not asked again. *)
Definition on_mount (sessionStorage : gmap string string) (st : State)
    : State :=
  let accepted := sessionStorage !! "disclaimerAccepted" in
  if bool_decide (accepted = Some "true")
  then {| isAccepted := true; showFullInFooter := showFullInFooter st |}
  else st.

Definition handleAccept (sessionStorage : gmap string string) (st : State)
    : State * gmap string string :=
  ({| isAccepted := true; showFullInFooter := showFullInFooter st |},
   <["disclaimerAccepted" := "true"]> sessionStorage).

Definition setShowFullInFooter (b : bool) (st : State) : State :=
  {| isAccepted := isAccepted st; showFullInFooter := b |}.

Inductive view := Splash | SmallBar | ExpandedFooter.

Definition render (st : State) : view :=
  if negb (isAccepted st) then Splash
  else if negb (showFullInFooter st) then SmallBar
  else ExpandedFooter.

(** The component as it stands once mounted in a session. *)
Definition mounted (sessionStorage : gmap string string) : State :=
  on_mount sessionStorage initial.

End Disclaimer.

(** ** VoiceInput and the voice submit handler of App *)

Module Voice.

(** A recording: its MIME type and its bytes. *)
Record Blob := { blob_type : string; blob_bytes : list N }.

(** A field of a [FormData]. *)
Inductive form_value :=
| FormText (value : js_string)
| FormFile (file : Blob) (filename : string).

(** A request whose body is a [FormData]; the code sets no header. *)
Record upload := {
  url : string;
  method : string;
  form : list (string * form_value)
}.

(** A parsed reply of the voice endpoint that is not [null]: a value of
    which the code reads the [triage_result] property ([None]: the
    property is missing or null).  [response.json()] can also give
    [null] itself, of which no property can be read: a parsed reply is
    an [option VoiceTriage], [None] standing for [null]. *)
Record VoiceTriage := { triage_result : option TriageResult.t }.

(** The state of [App] with the uploads sent so far. *)
Record AppWorld := { app : App.AppState; uploads : list upload }.

(** Run an effect of [App] on the [app] part. *)
Definition on_app {A} (m : M App.AppState A) : M AppWorld A :=
  λ w, let out := m {| state := app (state w); route := route w;
                       requests := requests w |} in
       (out.1,
        {| state := {| app := state out.2; uploads := uploads (state w) |};
           route := route out.2;
           requests := requests out.2 |}).

(** [await fetch(url, { method, body: formData })]: the upload is
    noted by [note], then the server's reply decides. *)
Definition fetch_form_with {S A} (note : upload → S → S)
    (server : upload → Http.reply A) (req : upload)
    : M S (Http.response A) :=
  λ w, let w' := {| state := note req (state w);
                    route := route w; requests := requests w |} in
       match server req with
       | Http.Rejected m => (inl (ErrorObject m), w')
       | Http.Responded ok parsed =>
           (inr {| Http.ok := ok; Http.parsed := parsed |}, w')
       end.

Definition fetch_form {A} (server : upload → Http.reply A) (req : upload)
    : M AppWorld (Http.response A) :=
  fetch_form_with
    (λ req s, {| app := app s; uploads := uploads s ++ [req] |})
    server req.

Definition voice_request (audioBlob : Blob) (language : js_string)
    : upload :=
  {| url := App.API_BASE_URL +:+ "/triage/voice";
     method := "POST";
     form := [("audio_file", FormFile audioBlob "recording.wav");
              ("language", FormText language);
              ("duration", FormText (lit "10"))] |}.

Section handlers.

(** The message of the TypeError that the engine throws when a property
    of [null] is read; its wording is the engine's. *)
Variable type_error : js_string.

(** [result.triage_result] *)
Definition get_triage_result {S} (result : option VoiceTriage)
    : M S (option TriageResult.t) :=
  match result with
  | None => throw (ErrorObject type_error)
  | Some value => ret (triage_result value)
  end.

Definition handleVoiceSubmit
    (server : upload → Http.reply (option VoiceTriage))
    (audioBlob : Blob) (language : js_string) : M AppWorld unit :=
  on_app (App.setLoading true) ;;;
  on_app (App.setError None) ;;;
  try_catch_finally
    (response <- fetch_form server (voice_request audioBlob language) ;;
     when (negb (Http.ok response))
          (throw (ErrorObject (lit "Failed to process voice input"))) ;;;
     result <- json response ;;
     triage_result <- get_triage_result result ;;
     on_app (App.setTriageResult triage_result))
    (λ err, on_app (App.setError (Some match err with
                                       | ErrorObject message => message
                                       | OtherValue => lit "An error occurred"
                                       end)))
    (on_app (App.setLoading false)).

End handlers.

End Voice.

Module VoiceInput.

Definition handleSubmit {S}
    (onSubmit : Voice.Blob → js_string → M S unit)
    (audioBlob : option Voice.Blob) (selectedLanguage : js_string)
    : M S unit :=
  match audioBlob with
  | Some blob => onSubmit blob selectedLanguage ;;; navigate "/results"
  | None => ret tt
  end.

End VoiceInput.

(** The route /voice of [App]: the page calls [handleVoiceSubmit]
    without awaiting it. *)
Module VoiceRoute.

Definition voice_input_submit (type_error : js_string)
    (server : Voice.upload → Http.reply (option Voice.VoiceTriage))
    (audioBlob : option Voice.Blob) (selectedLanguage : js_string)
    : M Voice.AppWorld unit :=
  VoiceInput.handleSubmit
    (λ blob language,
       detached (Voice.handleVoiceSubmit type_error server blob language))
    audioBlob selectedLanguage.

End VoiceRoute.

(** ** AroviaHealthDesk: the voice tab

    The tab as a machine: the state of its hooks and references, the
    events that reach it, which of them the rendered page allows, and
    what each one does, the effect on [[isRecording]] included. *)

Module DeskVoice.

Record State := {
  isRecording : bool;
  recordingDuration : nat;
  audioBlob : option Voice.Blob;
  timer : bool;            (* [timerRef.current] holds a running interval *)
  recorder : bool;         (* [mediaRecorderRef.current] is set *)
  stopping : bool;         (* a recorder was stopped, [onstop] is due *)
  loading : bool;
  result : option Voice.VoiceTriage;
  error : option js_string;
  language : js_string;
  uploads : list Voice.upload   (* the uploads sent so far *)
}.

(** The first render, its effect run. *)
Definition initial : State :=
  {| isRecording := false; recordingDuration := 0; audioBlob := None;
     timer := false; recorder := false; stopping := false;
     loading := false; result := None; error := None;
     language := lit "hi"; uploads := [] |}.

Definition setIsRecording (b : bool) (s : State) : State :=
  {| isRecording := b; recordingDuration := recordingDuration s;
     audioBlob := audioBlob s; timer := timer s; recorder := recorder s;
     stopping := stopping s; loading := loading s; result := result s;
     error := error s; language := language s; uploads := uploads s |}.

Definition setRecordingDuration (f : nat → nat) (s : State) : State :=
  {| isRecording := isRecording s;
     recordingDuration := f (recordingDuration s);
     audioBlob := audioBlob s; timer := timer s; recorder := recorder s;
     stopping := stopping s; loading := loading s; result := result s;
     error := error s; language := language s; uploads := uploads s |}.

Definition setAudioBlob (b : option Voice.Blob) (s : State) : State :=
  {| isRecording := isRecording s; recordingDuration := recordingDuration s;
     audioBlob := b; timer := timer s; recorder := recorder s;
     stopping := stopping s; loading := loading s; result := result s;
     error := error s; language := language s; uploads := uploads s |}.

Definition setTimer (b : bool) (s : State) : State :=
  {| isRecording := isRecording s; recordingDuration := recordingDuration s;
     audioBlob := audioBlob s; timer := b; recorder := recorder s;
     stopping := stopping s; loading := loading s; result := result s;
     error := error s; language := language s; uploads := uploads s |}.

Definition setRecorder (ready stopped : bool) (s : State) : State :=
  {| isRecording := isRecording s; recordingDuration := recordingDuration s;
     audioBlob := audioBlob s; timer := timer s; recorder := ready;
     stopping := stopped; loading := loading s; result := result s;
     error := error s; language := language s; uploads := uploads s |}.

Definition setLoading (b : bool) (s : State) : State :=
  {| isRecording := isRecording s; recordingDuration := recordingDuration s;
     audioBlob := audioBlob s; timer := timer s; recorder := recorder s;
     stopping := stopping s; loading := b; result := result s;
     error := error s; language := language s; uploads := uploads s |}.

Definition setResult (r : option Voice.VoiceTriage) (s : State) : State :=
  {| isRecording := isRecording s; recordingDuration := recordingDuration s;
     audioBlob := audioBlob s; timer := timer s; recorder := recorder s;
     stopping := stopping s; loading := loading s; result := r;
     error := error s; language := language s; uploads := uploads s |}.

Definition setError (e : option js_string) (s : State) : State :=
  {| isRecording := isRecording s; recordingDuration := recordingDuration s;
     audioBlob := audioBlob s; timer := timer s; recorder := recorder s;
     stopping := stopping s; loading := loading s; result := result s;
     error := e; language := language s; uploads := uploads s |}.

Definition setLanguage (l : js_string) (s : State) : State :=
  {| isRecording := isRecording s; recordingDuration := recordingDuration s;
     audioBlob := audioBlob s; timer := timer s; recorder := recorder s;
     stopping := stopping s; loading := loading s; result := result s;
     error := error s; language := l; uploads := uploads s |}.

Definition note_upload (req : Voice.upload) (s : State) : State :=
  {| isRecording := isRecording s; recordingDuration := recordingDuration s;
     audioBlob := audioBlob s; timer := timer s; recorder := recorder s;
     stopping := stopping s; loading := loading s; result := result s;
     error := error s; language := language s;
     uploads := uploads s ++ [req] |}.

(** The effect on [[isRecording]], run after a render in which
    [isRecording] changed: its clean-up clears the interval, then its
    body starts one while recording, and otherwise clears the interval
    and resets the duration to 0. *)
Definition timer_effect (before after : State) : State :=
  if bool_decide (isRecording before = isRecording after) then after
  else if isRecording after then setTimer true after
  else setRecordingDuration (λ _, 0%nat) (setTimer false after).

(** [startRecording], once the microphone and the recorder are there. *)
Definition startRecording_ok (s : State) : State :=
  setAudioBlob None
    (setError None (setIsRecording true (setRecorder true (stopping s) s))).

(** [startRecording], when the microphone or the recorder fails. *)
Definition startRecording_failed (message : js_string) (s : State) : State :=
  setError (Some (lit "Failed to access microphone: " ++ message)) s.

Definition stopRecording (s : State) : State :=
  if recorder s && isRecording s
  then setIsRecording false (setRecorder (recorder s) true s)
  else s.

(** The callback of the interval. *)
Definition tick (s : State) : State :=
  setRecordingDuration (λ prev, prev + 1)%nat s.

(** [mediaRecorder.onstop] *)
Definition onstop (audioBlob : Voice.Blob) (s : State) : State :=
  setAudioBlob (Some audioBlob) (setRecorder (recorder s) false s).

(** The button "Record Again". *)
Definition record_again (s : State) : State :=
  setRecordingDuration (λ _, 0%nat) (setAudioBlob None s).

(** What a click on a tab does to this state. *)
Definition tab_click (s : State) : State :=
  setAudioBlob None (setError None (setResult None s)).

Definition voice_request (s : State) (audioBlob : Voice.Blob)
    : Voice.upload :=
  {| Voice.url := HealthDesk.apiBaseUrl +:+ "/triage/voice";
     Voice.method := "POST";
     Voice.form :=
       [("audio_file",
         Voice.FormFile {| Voice.blob_type := "audio/webm";
                           Voice.blob_bytes := Voice.blob_bytes audioBlob |}
                        "recording.webm");
        ("language", Voice.FormText (language s));
        ("duration", Voice.FormText (Clock.toString (recordingDuration s)))] |}.

Definition handleVoiceTriage
    (server : Voice.upload → Http.reply (option Voice.VoiceTriage))
    : M State unit :=
  s <- get ;;
  match audioBlob s with
  | None => modify (setError (Some (lit "Please record audio first")))
  | Some blob =>
      modify (setLoading true) ;;;
      modify (setError None) ;;;
      modify (setResult None) ;;;
      try_catch_finally
        (response <- Voice.fetch_form_with note_upload server
                       (voice_request s blob) ;;
         when (negb (Http.ok response))
              (throw (ErrorObject (lit "Failed to analyze voice input"))) ;;;
         data <- json response ;;
         modify (setResult data))
        (λ err, modify (setError match err with
                                 | ErrorObject message => Some message
                                 | OtherValue => None
                                 end))
        (modify (setLoading false))
  end.

(** What can happen to the tab. *)
Inductive event :=
| StartRecording (failure : option js_string)
| Tick
| StopRecording
| OnStop (audioBlob : Voice.Blob)
| RecordAgain
| AnalyzeVoice
| TabClick
| SetLanguage (l : js_string).

(** Which events the rendered page allows: the start button shows
    when nothing is recording or recorded, the stop button while
    recording, "Record Again" and "Analyze Voice" once a recording is
    there and nothing is recording, the latter unless [loading]; the
    interval fires while it runs, [onstop] after a stop.  (The page
    shows the buttons on the voice tab only; which tab is open is left
    out, so more runs are allowed here than the page allows.) *)
Definition enabled (e : event) (s : State) : bool :=
  match e with
  | StartRecording _ =>
      negb (isRecording s) && negb (bool_decide (is_Some (audioBlob s)))
  | Tick => timer s
  | StopRecording => isRecording s
  | OnStop _ => stopping s
  | RecordAgain => bool_decide (is_Some (audioBlob s)) && negb (isRecording s)
  | AnalyzeVoice =>
      bool_decide (is_Some (audioBlob s)) && negb (isRecording s)
      && negb (loading s)
  | TabClick => true
  | SetLanguage _ => true
  end.

(** The handler of an event, then the effect of the render it causes. *)
Definition handle
    (server : Voice.upload → Http.reply (option Voice.VoiceTriage))
    (e : event) (s : State) : State :=
  timer_effect s
    match e with
    | StartRecording None => startRecording_ok s
    | StartRecording (Some message) => startRecording_failed message s
    | Tick => tick s
    | StopRecording => stopRecording s
    | OnStop blob => onstop blob s
    | RecordAgain => record_again s
    | AnalyzeVoice =>
        state (after (handleVoiceTriage server)
                 {| state := s; route := "/"; requests := [] |})
    | TabClick => tab_click s
    | SetLanguage l => setLanguage l s
    end.

(** A run of the tab: the events the page allows take effect, the
    others cannot occur and are skipped. *)
Definition run
    (server : Voice.upload → Http.reply (option Voice.VoiceTriage))
    (events : list event) : State :=
  foldl (λ s e, if enabled e s then handle server e s else s)
        initial events.

(** The duration an upload states. *)
Definition stated_duration (req : Voice.upload) : option Voice.form_value :=
  snd <$> head (filter (λ field, field.1 = "duration") (Voice.form req)).

(** What every run keeps: the interval runs exactly while recording,
    the duration is 0 whenever nothing is recording, and every upload
    sent states the duration 0. *)
Definition invariant (s : State) : Prop :=
  timer s = isRecording s
  ∧ (isRecording s = false → recordingDuration s = 0%nat)
  ∧ Forall (λ req, stated_duration req = Some (Voice.FormText (lit "0")))
           (uploads s).

End DeskVoice.

(** ** Reading a rendered results page *)

Module ResultsPage.

(** What the header says under "Emergency Detected". *)
Definition emergency_indicator (page : list Results.block)
    : option string :=
  head (page ≫= λ b, match b with
                      | Results.Header _ _ _ _ _ text _ => [text]
                      | _ => []
                      end).

(** The recommendations shown. *)
Definition recommendations (page : list Results.block) : list js_string :=
  page ≫= λ b, match b with
               | Results.Recommendations action => [action]
               | _ => []
               end.

End ResultsPage.

(** ** VoiceInput: the recorder of the voice page

    The mounted component as a machine: its hooks and references, the
    events that reach it and the ones the rendered page allows.
    [startRecording] is asynchronous: a click on the microphone button
    leaves a call waiting for [getUserMedia], with the button still on
    the page, and the rest of the call runs when the browser settles
    it, whatever has happened in between.  Every [setInterval] starts
    an interval of its own, and [clearInterval(timerRef.current)]
    clears only the one that [timerRef] holds. *)

Module VoiceRecorder.

Record State := {
  isRecording : bool;
  selectedLanguage : js_string;
  recordingTime : nat;
  audioBlob : option Voice.Blob;
  pending : nat;           (* calls of [startRecording] that wait for
                              [getUserMedia] *)
  recorder : bool;         (* [mediaRecorderRef.current] is set *)
  timer : bool;            (* [timerRef.current] holds a running interval *)
  stray : nat              (* running intervals that [timerRef.current]
                              does not hold any more *)
}.

Definition initial : State :=
  {| isRecording := false; selectedLanguage := lit "en"; recordingTime := 0;
     audioBlob := None; pending := 0; recorder := false; timer := false;
     stray := 0 |}.

(** A click on the microphone button: [startRecording] runs up to
    [await navigator.mediaDevices.getUserMedia(...)]. *)
Definition startRecording_called (s : State) : State :=
  {| isRecording := isRecording s; selectedLanguage := selectedLanguage s;
     recordingTime := recordingTime s; audioBlob := audioBlob s;
     pending := pending s + 1; recorder := recorder s; timer := timer s;
     stray := stray s |}.

(** How a waiting call of [startRecording] goes on. *)
Inductive start_outcome :=
| Refused      (* [getUserMedia] rejects or [new MediaRecorder] throws:
                  the [catch] block alerts, nothing is set *)
| NotStarted   (* [mediaRecorder.start()] throws: the new recorder is in
                  [mediaRecorderRef] already; the [catch] block alerts *)
| Started.     (* the [try] block runs to its end *)

(** The rest of [startRecording].  When it runs to its end the count
    starts again from 0 and a new interval is put in [timerRef]; an
    interval that [timerRef] held goes on running. *)
Definition startRecording_settled (outcome : start_outcome) (s : State)
    : State :=
  match outcome with
  | Refused =>
      {| isRecording := isRecording s; selectedLanguage := selectedLanguage s;
         recordingTime := recordingTime s; audioBlob := audioBlob s;
         pending := pending s - 1; recorder := recorder s; timer := timer s;
         stray := stray s |}
  | NotStarted =>
      {| isRecording := isRecording s; selectedLanguage := selectedLanguage s;
         recordingTime := recordingTime s; audioBlob := audioBlob s;
         pending := pending s - 1; recorder := true; timer := timer s;
         stray := stray s |}
  | Started =>
      {| isRecording := true; selectedLanguage := selectedLanguage s;
         recordingTime := 0; audioBlob := audioBlob s;
         pending := pending s - 1; recorder := true; timer := true;
         stray := if timer s then stray s + 1 else stray s |}
  end.

(** [stopRecording].  [throws]: [mediaRecorderRef.current.stop()]
    throws, as some engines do for a recorder that is not recording;
    the handler ends there.  Otherwise [isRecording] becomes false and
    the interval that [timerRef] holds is cleared, and no other. *)
Definition stopRecording (throws : bool) (s : State) : State :=
  if recorder s && isRecording s
  then if throws then s
       else {| isRecording := false; selectedLanguage := selectedLanguage s;
               recordingTime := recordingTime s; audioBlob := audioBlob s;
               pending := pending s; recorder := recorder s; timer := false;
               stray := stray s |}
  else s.

(** The callback of an interval. *)
Definition tick (s : State) : State :=
  {| isRecording := isRecording s; selectedLanguage := selectedLanguage s;
     recordingTime := recordingTime s + 1; audioBlob := audioBlob s;
     pending := pending s; recorder := recorder s; timer := timer s;
     stray := stray s |}.

(** [mediaRecorder.onstop] of a recorder that has stopped. *)
Definition onstop (blob : Voice.Blob) (s : State) : State :=
  {| isRecording := isRecording s; selectedLanguage := selectedLanguage s;
     recordingTime := recordingTime s; audioBlob := Some blob;
     pending := pending s; recorder := recorder s; timer := timer s;
     stray := stray s |}.

Definition setSelectedLanguage (l : js_string) (s : State) : State :=
  {| isRecording := isRecording s; selectedLanguage := l;
     recordingTime := recordingTime s; audioBlob := audioBlob s;
     pending := pending s; recorder := recorder s; timer := timer s;
     stray := stray s |}.

Inductive event :=
| ClickStart
| StartSettles (outcome : start_outcome)
| Tick
| ClickStop (throws : bool)
| OnStop (blob : Voice.Blob)
| SelectLanguage (l : js_string).

(** The microphone button shows while [isRecording] is false, the stop
    button while it is true; the language cannot be changed while
    recording.  A call of [startRecording] settles while one waits, an
    interval fires while one runs, and a recorder can stop once one was
    made.  (The page disables the microphone button while [loading], a
    property that [App] sets, and a recorder stops only when it is told
    to or its stream ends; both are left out, so more runs are allowed
    here than can occur.) *)
Definition enabled (e : event) (s : State) : bool :=
  match e with
  | ClickStart => negb (isRecording s)
  | StartSettles _ => bool_decide (0 < pending s)%nat
  | Tick => timer s || bool_decide (0 < stray s)%nat
  | ClickStop _ => isRecording s
  | OnStop _ => recorder s
  | SelectLanguage _ => negb (isRecording s)
  end.

Definition handle (e : event) (s : State) : State :=
  match e with
  | ClickStart => startRecording_called s
  | StartSettles outcome => startRecording_settled outcome s
  | Tick => tick s
  | ClickStop throws => stopRecording throws s
  | OnStop blob => onstop blob s
  | SelectLanguage l => setSelectedLanguage l s
  end.

(** A run of the page: the events that are allowed take effect, the
    others cannot occur and are skipped. *)
Definition run (events : list event) (s : State) : State :=
  foldl (λ s e, if enabled e s then handle e s else s) s events.

(** How many times an interval fires in a list of events. *)
Fixpoint ticks (events : list event) : nat :=
  match events with
  | [] => 0
  | Tick :: events' => S (ticks events')
  | _ :: events' => ticks events'
  end.

End VoiceRecorder.

(** ** i18n.ts: the translation resources *)

Module I18n.

(** A resource is a text or an object of named resources.  Texts are
    kept as the bytes of the source file. *)
#[warnings="-register-all"] Inductive tree :=
| Text (s : string)
| Obj (fields : gmap string tree).

(** The resource under a path of keys, as a dotted key such as
    [dashboard.features.secure] names it. *)
Fixpoint resolve (path : list string) (t : tree) : option tree :=
  match path with
  | [] => Some t
  | key :: path' =>
      match t with
      | Obj fields =>
          match fields !! key with
          | Some t' => resolve path' t'
          | None => None
          end
      | Text _ => None
      end
  end.

(** An entry of [indicTranslations]. *)
Record Translation := {
  title : string;
  nav : gmap string tree;
  dashboard : gmap string tree
}.

Definition indicTranslations : list (string * Translation) :=
  [("bn",
    {| title := "অ্যারোভিয়া হেলথ";
       nav :=
         list_to_map
           [("dashboard", Text "ড্যাশবোর্ড");
            ("triage", Text "তriage");
            ("voice", Text "ভয়েস ইনপুট");
            ("facilities", Text "সুবিধাসমূহ");
            ("results", Text "ফলাফল")];
       dashboard :=
         list_to_map
           [("welcome", Text "অ্যারোভিয়া হেলথে স্বাগতম");
            ("description", Text "ভাষার মধ্যে স্মার্ট টগল এবং স্বাস্থ্যসেবা ব্যবস্থাপনা।");
            ("start_triage", Text "লক্ষণ বিশ্লেষণ");
            ("voice_assistant", Text "কণ্ঠ সহকারী")] |});
   ("te",
    {| title := "అరోవియా హెల్త్";
       nav :=
         list_to_map
           [("dashboard", Text "డాష్‌బోర్డ్");
            ("triage", Text "ట్రయేజ్");
            ("voice", Text "వాయిస్ ఇన్‌పుట్");
            ("facilities", Text "సౌకర్యాలు");
            ("results", Text "ఫలితాలు")];
       dashboard :=
         list_to_map
           [("welcome", Text "అరోవియా హెల్త్‌కి స్వాగతం");
            ("description", Text "భాషల మధ్య స్మార్ట్ మార్పిడి మరియు ఆరోగ్య సంరక్షణ నిర్వహణ.");
            ("start_triage", Text "ట్రయేజ్ ప్రారంభించండి");
            ("voice_assistant", Text "వాయిస్ అసిస్టెంట్")] |});
   ("mr",
    {| title := "अरोविया हेल्थ";
       nav :=
         list_to_map
           [("dashboard", Text "डॅशबोर्ड");
            ("triage", Text "ट्राइएज");
            ("voice", Text "व्हॉइस इनपुट");
            ("facilities", Text "सुविधा");
            ("results", Text "निकाल")];
       dashboard :=
         list_to_map
           [("welcome", Text "अरोविया हेल्थ मध्ये आपले स्वागत आहे");
            ("description", Text "भाषांमध्ये स्मार्ट टॉगल आणि सोपी आरोग्य सेवा.");
            ("start_triage", Text "ट्राइएज सुरू करा");
            ("voice_assistant", Text "व्हॉइस असिस्टंट")] |});
   ("ta",
    {| title := "அரோவியா ஹெல்த்";
       nav :=
         list_to_map
           [("dashboard", Text "டாஷ்போர்டு");
            ("triage", Text "ட்ரைஜ்");
            ("voice", Text "குரல் உள்ளீடு");
            ("facilities", Text "வசதிகள்");
            ("results", Text "முடிவுகள்")];
       dashboard :=
         list_to_map
           [("welcome", Text "அரோவியா ஹெல்த்-க்கு வரவேற்கிறோம்");
            ("description", Text "மொழிகளுக்கு இடையே ஸ்மார்ட் மாற்றம் மற்றும் எளிதான சுகாதார மேலாண்மை.");
            ("start_triage", Text "ட்ரைஜை தொடங்கு");
            ("voice_assistant", Text "குரல் உதவியாளர்")] |});
   ("gu",
    {| title := "એરોવિયા હેલ્થ";
       nav :=
         list_to_map
           [("dashboard", Text "ડેશબોર્ડ");
            ("triage", Text "ટ્રાયજ");
            ("voice", Text "વૉઇસ ઇનપુટ");
            ("facilities", Text "સુવિધાઓ");
            ("results", Text "પરિણામો")];
       dashboard :=
         list_to_map
           [("welcome", Text "એરોવિયા હેલ્થમાં આપનું સ્વાગત છે");
            ("description", Text "ભાષાઓ વચ્ચે સ્માર્ટ ફેરફાર અને સરળ આરોગ્ય સંભાળ.");
            ("start_triage", Text "ટ્રાયજ શરૂ કરો");
            ("voice_assistant", Text "વૉઇસ સહાયક")] |});
   ("kn",
    {| title := "ಅರೋವಿಯಾ ಹೆಲ್ತ್";
       nav :=
         list_to_map
           [("dashboard", Text "ಡ್ಯಾಶ್‌ಬೋರ್ಡ್");
            ("triage", Text "ಟ್ರೈಯೇಜ್");
            ("voice", Text "ಧ್ವನಿ ಇನ್ಪುಟ್");
            ("facilities", Text "ಸೌಲಭ್ಯಗಳು");
            ("results", Text "ಫಲಿತಾಂಶಗಳು")];
       dashboard :=
         list_to_map
           [("welcome", Text "ಅರೋವಿಯಾ ಹೆಲ್ತ್‌ಗೆ ಸುಸ್ವಾಗತ");
            ("description", Text "ಭಾಷೆಗಳ ನಡುವೆ ಸ್ಮಾರ್ಟ್ ಬದಲಾವಣೆ ಮತ್ತು ಸರಳ ಆರೋಗ್ಯ ನಿರ್ವಹಣೆ.");
            ("start_triage", Text "ಟ್ರೈಯೇಜ್ ಪ್ರಾರಂಭಿಸಿ");
            ("voice_assistant", Text "ಧ್ವನಿ ಸಹಾಯಕ")] |});
   ("ml",
    {| title := "അരോവിയ ഹെൽത്ത്";
       nav :=
         list_to_map
           [("dashboard", Text "ഡാഷ്‌ബോർഡ്");
            ("triage", Text "ട്രയേജ്");
            ("voice", Text "വോയിസ് ഇൻപുട്ട്");
            ("facilities", Text "സൗകര്യങ്ങൾ");
            ("results", Text "ഫലങ്ങൾ")];
       dashboard :=
         list_to_map
           [("welcome", Text "അരോവിയ ഹെൽത്തിലേക്ക് സ്വാഗതം");
            ("description", Text "ഭാഷകൾക്കിടയിൽ ലളിതമായ മാറ്റം, ആരോഗ്യപരിപാലനം.");
            ("start_triage", Text "ട്രയേജ് ആരംഭിക്കുക");
            ("voice_assistant", Text "വോയിസ് അസിസ്റ്റന്റ്")] |});
   ("pa",
    {| title := "ਐਰੋਵੀਆ ਹੈਲਥ";
       nav :=
         list_to_map
           [("dashboard", Text "ਡੈਸ਼ਬੋਰਡ");
            ("triage", Text "ਟਰਾਇਜ");
            ("voice", Text "ਵੌਇਸ ਇਨਪੁਟ");
            ("facilities", Text "ਸਹੂਲਤਾਂ");
            ("results", Text "ਨਤੀਜੇ")];
       dashboard :=
         list_to_map
           [("welcome", Text "ਐਰੋਵੀਆ ਹੈਲਥ ਵਿੱਚ ਜੀ ਆਇਆਂ ਨੂੰ");
            ("description", Text "ਭਾਸ਼ਾਵਾਂ ਵਿੱਚ ਸਮਾਰਟ ਤਬਦੀਲੀ ਅਤੇ ਸਿਹਤ ਸੰਭਾਲ ਪ੍ਰਬੰਧਨ।");
            ("start_triage", Text "ਟਰਾਇਜ ਸ਼ੁਰੂ ਕਰੋ");
            ("voice_assistant", Text "ਵੌਇਸ ਸਹਾਇਕ")] |});
   ("ur",
    {| title := "اروویا ہیلتھ";
       nav :=
         list_to_map
           [("dashboard", Text "ڈیش بورڈ");
            ("triage", Text "ٹرایج");
            ("voice", Text "وائس ان پٹ");
            ("facilities", Text "سہولیات");
            ("results", Text "نتائج")];
       dashboard :=
         list_to_map
           [("welcome", Text "اروویا ہیلتھ میں خوش آمدید");
            ("description", Text "زبانوں کے درمیان ہوشیار تبدیلی اور صحت کی دیکھ بھال کا انتظام۔");
            ("start_triage", Text "ٹرایج شروع کریں");
            ("voice_assistant", Text "وائس اسسٹنٹ")] |});
   ("or",
    {| title := "ଆରୋଭିଆ ହେଲଥ୍";
       nav :=
         list_to_map
           [("dashboard", Text "ଡ୍ୟାସବୋର୍ଡ");
            ("triage", Text "ଟ୍ରାଏଜ୍");
            ("voice", Text "ଭଏସ୍ ଇନପୁଟ୍");
            ("facilities", Text "ସୁବିଧା");
            ("results", Text "ଫଳାଫଳ")];
       dashboard :=
         list_to_map
           [("welcome", Text "ଆରୋଭିଆ ହେଲଥ୍ କୁ ସ୍ୱାଗତ");
            ("description", Text "ଭାଷା ମଧ୍ୟରେ ସ୍ମାର୍ଟ ପରିବର୍ତ୍ତନ ଏବଂ ସ୍ୱାସ୍ଥ୍ୟ ସେବା ପରିଚାଳନା |");
            ("start_triage", Text "ଟ୍ରାଏଜ୍ ଆରମ୍ଭ କରନ୍ତୁ");
            ("voice_assistant", Text "ଭଏସ୍ ସହାୟକ")] |})].

Definition commonFeatures : gmap string tree :=
  list_to_map
    [("features",
      Obj (list_to_map
        [("instant_analysis", Text "Instant Analysis (AI)");
         ("instant_analysis_desc", Text "AI-based Triage");
         ("languages", Text "Multilingual");
         ("languages_desc", Text "Supports 22+ Languages");
         ("secure", Text "Secure");
         ("secure_desc", Text "Data Privacy Protected")]));
     ("disclaimer",
      Obj (list_to_map
        [("title", Text "Medical Disclaimer");
         ("text_full", Text "This application uses Artificial Intelligence to provide preliminary health triage recommendations. It is NOT a substitute for professional medical advice, diagnosis, or treatment. Always seek the advice of your physician or other qualified health provider with any questions you may have regarding a medical condition. If you think you may have a medical emergency, call your doctor or emergency services immediately.");
         ("text_short", Text "AI-powered assistant. Not a substitute for professional medical advice.");
         ("accept", Text "I Understand & Enter");
         ("read_more", Text "Read Full Disclaimer")]))].

(** [{ ...a, ...b }]: the properties of [a], then those of [b], a
    later one replacing an earlier one of the same name. *)
Definition spread (a b : gmap string tree) : gmap string tree := b ∪ a.

(** [{ translation: { title, nav, dashboard } }] *)
Definition bundle (title : string) (nav dashboard : gmap string tree)
    : tree :=
  Obj {[ "translation" :=
           Obj (list_to_map [("title", Text title); ("nav", Obj nav);
                             ("dashboard", Obj dashboard)]) ]}.

(** The three languages written out in [buildResources]. *)
Definition static_resources : gmap string tree :=
  list_to_map
  [("en",
    bundle "Arovia Health"
      (list_to_map
         [("dashboard", Text "Dashboard");
          ("triage", Text "Triage");
          ("voice", Text "Voice Input");
          ("facilities", Text "Facilities");
          ("results", Text "Results")])
      (spread
         (list_to_map
            [("welcome", Text "Welcome to Arovia Health");
             ("description", Text "Smart toggling between languages and streamlined healthcare management.");
             ("start_triage", Text "Start Triage");
             ("voice_assistant", Text "Voice Assistant")])
         commonFeatures));
   ("es",
    bundle "Salud Arovia"
      (list_to_map
         [("dashboard", Text "Tablero");
          ("triage", Text "Triaje");
          ("voice", Text "Entrada de voz");
          ("facilities", Text "Instalaciones");
          ("results", Text "Resultados")])
      (spread
         (list_to_map
            [("welcome", Text "Bienvenido a Salud Arovia");
             ("description", Text "Cambio inteligente entre idiomas.");
             ("start_triage", Text "Iniciar Triaje");
             ("voice_assistant", Text "Asistente de Voz")])
         commonFeatures));
   ("hi",
    bundle "एरोविया हेल्थ"
      (list_to_map
         [("dashboard", Text "डैशबोर्ड");
          ("triage", Text "ट्राइएज");
          ("voice", Text "वॉयस इनपुट");
          ("facilities", Text "सुविधाएं");
          ("results", Text "परिणाम")])
      (spread
         (list_to_map
            [("welcome", Text "एरोविया हेल्थ में आपका स्वागत है");
             ("description", Text "भाषाओं के बीच स्मार्ट टॉगलिंग।");
             ("start_triage", Text "ट्राइएज शुरू करें");
             ("voice_assistant", Text "वॉयस असिस्टेंट")])
         commonFeatures))].

(** The loop of [buildResources] over the entries of a table. *)
Definition add_translations (resources : gmap string tree)
    (table : list (string * Translation)) : gmap string tree :=
  foldl (λ resources entry,
           <[entry.1 := bundle (title entry.2) (nav entry.2)
                          (spread (dashboard entry.2) commonFeatures)]>
             resources)
        resources table.

Definition buildResources : gmap string tree :=
  add_translations static_resources indicTranslations.

(** A bundle made the way [buildResources] makes them, the common part
    spread last into its dashboard. *)
Definition built (b : tree) : Prop :=
  ∃ title nav dashboard,
    b = bundle title nav (spread dashboard commonFeatures).

(** The keys the disclaimer component asks for. *)
Definition disclaimer_keys : list (list string) :=
  [["disclaimer"; "title"]; ["disclaimer"; "text_full"];
   ["disclaimer"; "accept"]; ["disclaimer"; "text_short"];
   ["disclaimer"; "read_more"]].

End I18n.

(** * Properties *)

(** ** Strings *)

Section strings.

Implicit Types s p text : js_string.

Lemma trimStart_nil s : trimStart s = [] ↔ whitespace_only s = true.
Proof.
  unfold whitespace_only.
  induction s as [|c s IH]; simpl; [done|].
  destruct (is_white_space c); simpl; [done|].
  split; intros; discriminate.
Qed.

Lemma whitespace_only_app s1 s2 :
  whitespace_only (s1 ++ s2) = whitespace_only s1 && whitespace_only s2.
Proof. apply forallb_app. Qed.

Lemma whitespace_only_reverse s :
  whitespace_only (reverse s) = whitespace_only s.
Proof.
  induction s as [|c s IH]; [done|].
  rewrite reverse_cons, whitespace_only_app, IH. simpl.
  rewrite andb_true_r. apply andb_comm.
Qed.

Lemma trimStart_whitespace_only s :
  whitespace_only (trimStart s) = whitespace_only s.
Proof.
  induction s as [|c s IH]; simpl; [done|].
  destruct (is_white_space c) eqn:Hc; simpl; [done|].
  by rewrite Hc.
Qed.

(** [trim] gives the empty string exactly on the white-space-only
    strings, the empty one among them. *)
Lemma trim_nil s : trim s = [] ↔ whitespace_only s = true.
Proof.
  unfold trim, trimEnd.
  rewrite <-(trimStart_whitespace_only s),
          <-(whitespace_only_reverse (trimStart s)), <-trimStart_nil.
  split; intros Hs.
  - by apply (f_equal reverse) in Hs; rewrite reverse_involutive in Hs.
  - by rewrite Hs.
Qed.

Lemma truthy_trim s : truthy (trim s) = negb (whitespace_only s).
Proof.
  destruct (whitespace_only s) eqn:Hs.
  - apply trim_nil in Hs. by rewrite Hs.
  - destruct (trim s) eqn:Ht; [|done].
    apply trim_nil in Ht. congruence.
Qed.

Lemma trimStart_split s :
  ∃ pre, s = pre ++ trimStart s ∧ whitespace_only pre = true.
Proof.
  induction s as [|c s (pre & Hs & Hpre)]; [by exists []|]. simpl.
  destruct (is_white_space c) eqn:Hc; [|by exists []].
  exists (c :: pre). split; [by rewrite Hs at 1|].
  unfold whitespace_only in *. simpl. by rewrite Hc.
Qed.

Lemma trimStart_head s c rest :
  trimStart s = c :: rest → is_white_space c = false.
Proof.
  induction s as [|a s IH]; simpl; [done|].
  destruct (is_white_space a) eqn:Ha; [done|]. by intros [= <- _].
Qed.

Lemma trimEnd_split s :
  ∃ post, s = trimEnd s ++ post ∧ whitespace_only post = true.
Proof.
  unfold trimEnd.
  destruct (trimStart_split (reverse s)) as (pre & Hs & Hpre).
  exists (reverse pre). split; [|by rewrite whitespace_only_reverse].
  by rewrite <-reverse_app, <-Hs, reverse_involutive.
Qed.

Lemma trimEnd_last s c :
  last (trimEnd s) = Some c → is_white_space c = false.
Proof.
  unfold trimEnd. rewrite last_reverse.
  destruct (trimStart (reverse s)) as [|a rest] eqn:Ht; [done|].
  intros [= <-]. by eapply trimStart_head.
Qed.

(** [trim] removes a run of white space at each end and nothing else:
    what is left neither starts nor ends with white space. *)
Lemma trim_spec s :
  (∃ pre post, s = pre ++ trim s ++ post
               ∧ whitespace_only pre = true ∧ whitespace_only post = true)
  ∧ (∀ c, head (trim s) = Some c → is_white_space c = false)
  ∧ (∀ c, last (trim s) = Some c → is_white_space c = false).
Proof.
  unfold trim.
  destruct (trimStart_split s) as (pre & Hs & Hpre).
  destruct (trimEnd_split (trimStart s)) as (post & Ht & Hpost).
  split_and!.
  - exists pre, post. by rewrite <-Ht.
  - intros c Hc. destruct (trimStart s) as [|a rest] eqn:Hstart; [done|].
    destruct (trimEnd (a :: rest)) as [|b kept]; [done|].
    simpl in Hc. injection Hc as ->. injection Ht as -> _.
    by eapply trimStart_head.
  - apply trimEnd_last.
Qed.
Lemma startsWith_spec p text :
  startsWith p text = true ↔ ∃ post, text = p ++ post.
Proof.
  revert text. induction p as [|a p IH]; intros text; simpl.
  - split; [eauto|done].
  - destruct text as [|b text].
    + split; [done|]. intros [post ?]. discriminate.
    + rewrite andb_true_iff, N.eqb_eq, IH. split.
      * intros [-> [post ->]]. eauto.
      * intros [post [= -> ->]]. eauto.
Qed.

Lemma includes_spec p text :
  includes p text = true ↔ ∃ pre post, text = pre ++ p ++ post.
Proof.
  induction text as [|b text IH]; simpl.
  - rewrite orb_false_r, startsWith_spec. split.
    + intros [post ->]. by exists [], post.
    + intros (pre & post & H). symmetry in H.
      apply app_eq_nil in H as [-> H]. apply app_eq_nil in H as [-> ->].
      by exists [].
  - rewrite orb_true_iff, startsWith_spec, IH. split.
    + intros [[post ->]|(pre & post & ->)].
      * by exists [], post.
      * by exists (b :: pre), post.
    + intros ([|c pre] & post & H); simpl in H.
      * left. eauto.
      * right. injection H as -> ->. eauto.
Qed.

End strings.

(** ** Numbers *)

Section numbers.

Implicit Types score : Qc.

Lemma num_le a b : (a ≤ b)%Z → num a ≤ num b.
Proof.
  intros Hab. unfold num, Qcle. simpl. rewrite !Qred_correct.
  by rewrite <-Zle_Qle.
Qed.

Lemma below_threshold a b score : (a ≤ b)%Z → score < num a → ¬ num b ≤ score.
Proof.
  intros Hab Hlt Hle. apply (Qclt_not_le _ _ Hlt).
  etrans; [by apply num_le|done].
Qed.

End numbers.

(** Order facts about a score and the integer thresholds. *)
Ltac order_Qc :=
  unfold Qcle, Qclt, num in *; cbn [this Q2Qc] in *;
  rewrite ?Qred_correct in *; unfold inject_Z in *; lra.

(** ** The submit handlers *)

(** Unfold a handler down to the replies of the backend. *)
Ltac run_handler :=
  unfold issued, after, Routes.triage_form_submit, Routes.dashboard_submit,
    TriageForm.handleSubmit, Dashboard.handleSubmit, App.handleTriageSubmit,
    HealthDesk.handleTextTriage,
    try_catch_finally, bind, when, detached, fetch, json, throw, ret,
    navigate, get,
    App.setLoading, App.setError, App.setTriageResult, App.setFacilities,
    HealthDesk.setLoading, HealthDesk.setError, HealthDesk.setResult, modify;
  cbn -[lit trim App.triage_request App.facilities_request
        HealthDesk.triage_request].

(** Case analysis on what a [fetch] brought back. *)
Ltac on_reply server req :=
  let ok := fresh "ok" in
  let message := fresh "message" in
  destruct (server req) as [message|ok [message|?]] eqn:?;
  [|destruct ok..]; cbn -[lit trim App.triage_request App.facilities_request].

Section handlers.

Variable net : Http.backend.
Implicit Types (symptoms : js_string) (location : option js_string)
               (w : world App.AppState).

(** The handler always ends normally: the [catch] swallows whatever
    was thrown. *)
Lemma handleTriageSubmit_returns symptoms location w :
  (App.handleTriageSubmit net symptoms location w).1 = inr ().
Proof.
  run_handler.
  on_reply (Http.triage_text net) (App.triage_request symptoms location);
    try done.
  destruct (truthy_opt location); cbn; [|done].
  on_reply (Http.facilities net) (App.facilities_request location); done.
Qed.

(** The first request a submission sends is the triage request, and
    only a facilities request can follow it. *)
Lemma handleTriageSubmit_issued symptoms location w :
  ∃ rest,
    issued (App.handleTriageSubmit net symptoms location) w
    = App.triage_request symptoms location :: rest
    ∧ (rest = [] ∨ rest = [App.facilities_request location]).
Proof.
  run_handler.
  on_reply (Http.triage_text net) (App.triage_request symptoms location);
    try (exists []; rewrite drop_app_length; by auto).
  destruct (truthy_opt location); cbn;
    [|exists []; rewrite drop_app_length; by auto].
  exists [App.facilities_request location].
  on_reply (Http.facilities net) (App.facilities_request location);
    rewrite <-app_assoc, drop_app_length; by auto.
Qed.

(** A successful triage reply is stored, whatever the facilities
    request does afterwards. *)
Lemma handleTriageSubmit_stores symptoms location w r :
  Http.triage_text net (App.triage_request symptoms location)
  = Http.Responded true (inr r) →
  App.triageResult (state (after (App.handleTriageSubmit net symptoms
                                    location) w)) = Some r.
Proof.
  intros Hr. run_handler. rewrite Hr. cbn.
  destruct (truthy_opt location); cbn; [|done].
  on_reply (Http.facilities net) (App.facilities_request location); done.
Qed.

(** With a location, a facilities reply that is ok and parses becomes
    the stored list. *)
Lemma handleTriageSubmit_stores_facilities symptoms location w r l :
  truthy_opt location = true →
  Http.triage_text net (App.triage_request symptoms location)
  = Http.Responded true (inr r) →
  Http.facilities net (App.facilities_request location)
  = Http.Responded true (inr l) →
  App.facilities (state (after (App.handleTriageSubmit net symptoms
                                  location) w)) = l.
Proof.
  intros Hlocation Hr Hl. run_handler. rewrite Hr. cbn.
  rewrite Hlocation. cbn. by rewrite Hl.
Qed.

End handlers.

(** C8: when the HTTP response to the triage request is not ok, the
    handler ends with the error 'Failed to analyze symptoms', has sent
    that one request and no other (no retry), and leaves the stored
    triage result and facilities list as they were; only [error] and
    [loading] are written. *)
Theorem failed_triage_only_sets_error net symptoms location w parsed :
  Http.triage_text net (App.triage_request symptoms location)
  = Http.Responded false parsed →
  App.handleTriageSubmit net symptoms location w
  = (inr (),
     {| state :=
          {| App.triageResult := App.triageResult (state w);
             App.facilities := App.facilities (state w);
             App.loading := false;
             App.error := Some (lit "Failed to analyze symptoms") |};
        route := route w;
        requests := requests w ++ [App.triage_request symptoms location] |})
  ∧ issued (App.handleTriageSubmit net symptoms location) w
    = [App.triage_request symptoms location].
Proof.
  intros Hreply. run_handler. rewrite Hreply. cbn -[lit].
  by rewrite drop_app_length.
Qed.

Lemma failed_triage_only_sets_error_witness :
  Http.triage_text Sample.backend_down
    (App.triage_request (lit "fever") (Some (lit "Pune")))
  = Http.Responded false (inl (lit "Unexpected token"))
  ∧ App.handleTriageSubmit Sample.backend_down (lit "fever")
      (Some (lit "Pune")) Sample.served
    = (inr (),
       {| state :=
            {| App.triageResult := Some Sample.headache;
               App.facilities := Sample.four_clinics;
               App.loading := false;
               App.error := Some (lit "Failed to analyze symptoms") |};
          route := "/results";
          requests :=
            requests Sample.served
            ++ [App.triage_request (lit "fever") (Some (lit "Pune"))] |}).
Proof.
  split; [reflexivity|].
  apply (failed_triage_only_sets_error Sample.backend_down (lit "fever")
           (Some (lit "Pune")) Sample.served (inl (lit "Unexpected token"))).
  reflexivity.
Defined.

(** C6: a submission whose trimmed symptom text is not empty sends, as
    its first request, a POST to /triage/text with a JSON body made of
    exactly the trimmed symptoms and, when the trimmed location is not
    empty, that location; only a facilities request can follow.  When the
    reply is ok and parses, the parsed reply is the stored triage
    result.  This holds for the triage form and for the dashboard
    form. *)
Theorem submission_forwards_trimmed_input net submit symptoms location w :
  submit = Routes.triage_form_submit ∨ submit = Routes.dashboard_submit →
  truthy (trim symptoms) = true →
  let req :=
    {| Http.url := "http://localhost:8000/triage/text";
       Http.method := "POST";
       Http.headers := [("Content-Type", "application/json")];
       Http.body :=
         JObject (("symptoms", JString (trim symptoms))
                  :: if truthy (trim location)
                     then [("location", JString (trim location))]
                     else []) |} in
  (∃ rest, issued (submit net symptoms location) w = req :: rest
           ∧ forallb App.to_facilities rest = true)
  ∧ (∀ r, Http.triage_text net req = Http.Responded true (inr r) →
          App.triageResult (state (after (submit net symptoms location) w))
          = Some r).
Proof.
  intros Hsubmit Hsymptoms req.
  assert (App.triage_request (trim symptoms) (or_undefined (trim location))
          = req) as Hreq.
  { unfold App.triage_request, req, or_undefined, stringify_object.
    by destruct (trim location). }
  destruct (handleTriageSubmit_issued net (trim symptoms)
              (or_undefined (trim location)) w) as (rest & Hissued & Hrest).
  rewrite Hreq in Hissued.
  assert (forallb App.to_facilities rest = true) as Hfac
    by (by destruct Hrest as [-> | ->]).
  split.
  - exists rest. split; [|done].
    destruct Hsubmit as [-> | ->]; rewrite <-Hissued;
      unfold issued, after, Routes.triage_form_submit,
        Routes.dashboard_submit, TriageForm.handleSubmit,
        Dashboard.handleSubmit, when, bind, detached, navigate;
      by rewrite Hsymptoms.
  - intros r Hr. rewrite <-Hreq in Hr.
    pose proof (handleTriageSubmit_stores net _ _ w r Hr) as Hstored.
    rewrite <-Hstored.
    destruct Hsubmit as [-> | ->];
      unfold after, Routes.triage_form_submit, Routes.dashboard_submit,
        TriageForm.handleSubmit, Dashboard.handleSubmit, when, bind,
        detached, navigate;
      by rewrite Hsymptoms.
Qed.

Lemma submission_forwards_trimmed_input_witness :
  truthy (trim (lit "  mild headache ")) = true
  ∧ issued (Routes.triage_form_submit Sample.backend_up
              (lit "  mild headache ") (lit " Pune")) Sample.fresh
    = [App.triage_request (lit "mild headache") (Some (lit "Pune"));
       App.facilities_request (Some (lit "Pune"))]
  ∧ App.triageResult
      (state (after (Routes.triage_form_submit Sample.backend_up
                       (lit "  mild headache ") (lit " Pune")) Sample.fresh))
    = Some Sample.headache.
Proof.
  split; [reflexivity|].
  destruct (submission_forwards_trimmed_input Sample.backend_up
              Routes.triage_form_submit (lit "  mild headache ")
              (lit " Pune") Sample.fresh (or_introl eq_refl) eq_refl)
    as [_ Hstored].
  split; [reflexivity|].
  apply Hstored. reflexivity.
Defined.

(** C7, as stated, fails: with a location given but a triage reply that
    is not ok, no request goes to /facilities. *)
Lemma facilities_requested_iff_location_counterexample :
  ¬ (existsb App.to_facilities
       (issued (App.handleTriageSubmit Sample.backend_down (lit "fever")
                  (Some (lit "Pune"))) Sample.fresh) = true
     ↔ truthy_opt (Some (lit "Pune")) = true).
Proof. intros [_ Hrequested]. by specialize (Hrequested eq_refl). Qed.

(** C7, amended: a request goes to /facilities if and only if a location
    was given and the triage request succeeded (its reply is ok and
    parses); when no location is given, the stored facilities list is
    left as it was. *)
Theorem facilities_requested_iff_location_and_success
    net symptoms location w :
  (existsb App.to_facilities
     (issued (App.handleTriageSubmit net symptoms location) w) = true
   ↔ truthy_opt location = true
     ∧ ∃ r, Http.triage_text net (App.triage_request symptoms location)
            = Http.Responded true (inr r))
  ∧ (truthy_opt location = false →
     App.facilities
       (state (after (App.handleTriageSubmit net symptoms location) w))
     = App.facilities (state w)).
Proof.
  run_handler.
  on_reply (Http.triage_text net) (App.triage_request symptoms location);
    try (rewrite drop_app_length; split; [|done];
         split; [done|]; by intros [_ [? ?]]).
  destruct (truthy_opt location); cbn.
  - split; [|done].
    on_reply (Http.facilities net) (App.facilities_request location);
      rewrite <-app_assoc, drop_app_length; (split; [by eauto|reflexivity]).
  - rewrite drop_app_length. split; [|done]. split; [done|]. by intros [? _].
Qed.

Lemma facilities_requested_iff_location_and_success_witness :
  existsb App.to_facilities
    (issued (App.handleTriageSubmit Sample.backend_up (lit "mild headache")
               (Some (lit "Pune"))) Sample.fresh) = true
  ∧ App.facilities
      (state (after (App.handleTriageSubmit Sample.backend_up
                       (lit "mild headache") None) Sample.served))
    = Sample.four_clinics.
Proof.
  destruct (facilities_requested_iff_location_and_success Sample.backend_up
              (lit "mild headache") (Some (lit "Pune")) Sample.fresh)
    as [[_ Hrequested] _].
  destruct (facilities_requested_iff_location_and_success Sample.backend_up
              (lit "mild headache") None Sample.served)
    as [_ Hkept].
  split.
  - apply Hrequested. split; [reflexivity|]. by exists Sample.headache.
  - rewrite Hkept; reflexivity.
Defined.

(** C10: on a symptom text that is empty or all white space, neither
    form calls the backend: both handlers return at once and leave the
    state, the route and the trace as they were.  The desk variant sends
    nothing either; it sets the error 'Please enter your symptoms' and
    changes nothing else. *)
Theorem no_request_for_blank_symptoms
    net parseFloat symptoms location
    (w : world App.AppState) (d : world HealthDesk.DeskState) :
  whitespace_only symptoms = true →
  HealthDesk.textSymptoms (state d) = symptoms →
  Routes.triage_form_submit net symptoms location w = (inr (), w)
  ∧ issued (Routes.triage_form_submit net symptoms location) w = []
  ∧ Routes.dashboard_submit net symptoms location w = (inr (), w)
  ∧ issued (Routes.dashboard_submit net symptoms location) w = []
  ∧ HealthDesk.handleTextTriage parseFloat net d
    = (inr (),
       {| state :=
            {| HealthDesk.loading := HealthDesk.loading (state d);
               HealthDesk.result := HealthDesk.result (state d);
               HealthDesk.error := Some (lit "Please enter your symptoms");
               HealthDesk.textSymptoms := HealthDesk.textSymptoms (state d);
               HealthDesk.location := HealthDesk.location (state d);
               HealthDesk.coordinates := HealthDesk.coordinates (state d) |};
          route := route d;
          requests := requests d |})
  ∧ issued (HealthDesk.handleTextTriage parseFloat net) d = [].
Proof.
  intros Hblank <-.
  assert (truthy (trim (HealthDesk.textSymptoms (state d))) = false)
    as Hfalsy by (by rewrite truthy_trim, Hblank).
  unfold issued, after, Routes.triage_form_submit, Routes.dashboard_submit,
    TriageForm.handleSubmit, Dashboard.handleSubmit,
    HealthDesk.handleTextTriage, when, bind, get, ret.
  rewrite Hfalsy. unfold HealthDesk.setError, modify.
  cbn -[lit]. by rewrite !drop_all.
Qed.

Lemma no_request_for_blank_symptoms_witness :
  whitespace_only [32; 9; 10]%N = true
  ∧ Routes.triage_form_submit Sample.backend_up [32; 9; 10]%N (lit "Pune")
      Sample.fresh = (inr (), Sample.fresh)
  ∧ requests (after (HealthDesk.handleTextTriage (λ _, None)
                       Sample.backend_up) Sample.blank_desk) = [].
Proof.
  split; [reflexivity|].
  destruct (no_request_for_blank_symptoms Sample.backend_up (λ _, None)
              [32; 9; 10]%N (lit "Pune") Sample.fresh Sample.blank_desk
              eq_refl eq_refl) as (Hform & _ & _ & _ & Hdesk & _).
  split; [exact Hform|].
  unfold after. by rewrite Hdesk.
Defined.

(** ** The results page *)

Section results_page.

Implicit Types (props : Results.ResultsProps) (r : TriageResult.t).

(** What the page is made of when it shows a result. *)
Lemma shows_result_inv props :
  Results.shows_result props = true →
  Results.loading props = false
  ∧ truthy_opt (Results.error props) = false
  ∧ ∃ r, Results.triageResult props = Some r.
Proof.
  unfold Results.shows_result.
  rewrite !andb_true_iff, !negb_true_iff, bool_decide_eq_true.
  intros [[? ?] [r ?]]. eauto.
Qed.

(** Otherwise it is one of the three early returns. *)
Lemma early_return props :
  Results.shows_result props = false →
  Results.Results props = [Results.AnalyzingSymptoms]
  ∨ (∃ message, Results.Results props = [Results.AnalysisError message])
  ∨ Results.Results props = [Results.NoResults].
Proof.
  unfold Results.shows_result, Results.Results.
  destruct (Results.loading props); [by left|].
  destruct (Results.error props) as [[|c message]|]; simpl.
  2: { intros _. right; left. by eauto. }
  all: destruct (Results.triageResult props); simpl;
    [done|intros _; by right; right].
Qed.

End results_page.

Lemma length_positive {A} (l : list A) :
  bool_decide (0 < length l)%nat = match l with [] => false | _ => true end.
Proof.
  by destruct l.
Qed.

(** Unfold the page of a result that is shown. *)
Ltac page_of props Hshown :=
  let r := fresh "r" in
  destruct (shows_result_inv props Hshown) as (Hloading & Herror & r & Hr);
  unfold Results.Results; rewrite Hloading, Hr;
  destruct (Results.error props) as [[|? ?]|]; [|done|]; clear Herror.

(** The badge and the alert of a shown result. *)
Lemma shown_badge props r :
  Results.shows_result props = true →
  Results.triageResult props = Some r →
  Results.urgency_badge (Results.Results props)
  = Some (Results.getUrgencyColor (TriageResult.urgency_score r),
          Results.getUrgencyText (TriageResult.urgency_score r)).
Proof. intros Hshown Hprops. page_of props Hshown; by simplify_eq. Qed.

Lemma shown_alert props r :
  Results.shows_result props = true →
  Results.triageResult props = Some r →
  Results.shows_emergency_alert (Results.Results props)
  = TriageResult.emergency_detected r.
Proof.
  intros Hshown Hprops. page_of props Hshown; simplify_eq.
  all: unfold Results.shows_emergency_alert; rewrite !length_positive.
  all: destruct (TriageResult.red_flags r);
       destruct (TriageResult.potential_risks r);
       destruct (TriageResult.emergency_detected r);
       by destruct (Results.facilities props).
Qed.

(** The red flags and the facility cards of a shown result. *)
Lemma shown_red_flags props r :
  Results.shows_result props = true →
  Results.triageResult props = Some r →
  Results.listed_red_flags (Results.Results props)
  = TriageResult.red_flags r.
Proof.
  intros Hshown Hprops. page_of props Hshown; simplify_eq.
  all: unfold Results.listed_red_flags; rewrite !length_positive.
  all: destruct (TriageResult.red_flags r);
       destruct (TriageResult.potential_risks r);
       destruct (TriageResult.emergency_detected r);
       destruct (Results.facilities props); cbn;
       by rewrite ?app_nil_r.
Qed.

Lemma shown_facility_cards props :
  Results.shows_result props = true →
  Results.facility_cards (Results.Results props)
  = Results.render_facility <$> take 3 (Results.facilities props).
Proof.
  intros Hshown. page_of props Hshown.
  all: unfold Results.facility_cards; rewrite !length_positive.
  all: destruct (TriageResult.red_flags r);
       destruct (TriageResult.potential_risks r);
       destruct (TriageResult.emergency_detected r);
       destruct (Results.facilities props); cbn;
       by rewrite ?app_nil_r.
Qed.


(** C3: the urgency label of the results page depends on the score
    only.  A score of 9 or more is labelled IMMEDIATE on red, a score
    from 7 up to 9 (so 7 and 8) URGENT on yellow, any lower score
    STANDARD on green; the badge of a shown result is the label and the
    colour of its score. *)
Theorem urgency_label_by_score score :
  (num 9 ≤ score →
   Results.getUrgencyText score = "IMMEDIATE"
   ∧ Results.getUrgencyColor score = "text-red-600 bg-red-100")
  ∧ (num 7 ≤ score → score < num 9 →
     Results.getUrgencyText score = "URGENT"
     ∧ Results.getUrgencyColor score = "text-yellow-600 bg-yellow-100")
  ∧ (score < num 7 →
     Results.getUrgencyText score = "STANDARD"
     ∧ Results.getUrgencyColor score = "text-green-600 bg-green-100")
  ∧ Results.getUrgencyText (num 7) = "URGENT"
  ∧ Results.getUrgencyText (num 8) = "URGENT"
  ∧ ∀ props r,
      Results.shows_result props = true →
      Results.triageResult props = Some r →
      TriageResult.urgency_score r = score →
      Results.urgency_badge (Results.Results props)
      = Some (Results.getUrgencyColor score, Results.getUrgencyText score).
Proof.
  unfold Results.getUrgencyText, Results.getUrgencyColor.
  repeat split.
  1,2: by rewrite bool_decide_true.
  1,2: by rewrite bool_decide_false, bool_decide_true
            by (done || by apply Qclt_not_le).
  1,2: by rewrite !bool_decide_false
            by (eapply below_threshold; [|eassumption]; lia).
  intros props r Hshown Hprops <-. by apply shown_badge.
Qed.

Lemma urgency_label_by_score_witness :
  Results.shows_result (Sample.showing Sample.headache []) = true
  ∧ Results.urgency_badge
      (Results.Results (Sample.showing Sample.headache []))
    = Some ("text-green-600 bg-green-100", "STANDARD").
Proof.
  split; [reflexivity|].
  destruct (urgency_label_by_score (num 2)) as (_ & _ & _ & _ & _ & Hbadge).
  apply (Hbadge (Sample.showing Sample.headache []) Sample.headache);
    reflexivity.
Defined.

(** C2, as stated, fails: a result with a red flag that the backend did
    not mark as an emergency is stored and shown as it is, without the
    alert. *)
Lemma red_flags_force_emergency_counterexample :
  ¬ (TriageResult.red_flags Sample.flagged ≠ [] →
     TriageResult.emergency_detected Sample.flagged = true
     ∧ Results.shows_emergency_alert
         (Results.Results (Sample.showing Sample.flagged [])) = true).
Proof. intros Hclaim. by destruct Hclaim. Qed.

(** C2, amended: on the page of a shown result the EMERGENCY DETECTED
    alert (call 108) appears exactly when [emergency_detected] is true;
    the red flags of the result are all listed, whether or not the
    alert appears. *)
Theorem alert_follows_emergency_detected props r :
  Results.shows_result props = true →
  Results.triageResult props = Some r →
  Results.shows_emergency_alert (Results.Results props)
  = TriageResult.emergency_detected r
  ∧ Results.listed_red_flags (Results.Results props)
    = TriageResult.red_flags r.
Proof.
  intros Hshown Hprops. split.
  - by apply shown_alert.
  - by apply shown_red_flags.
Qed.

Lemma alert_follows_emergency_detected_witness :
  Results.shows_result (Sample.showing Sample.flagged []) = true
  ∧ Results.shows_emergency_alert
      (Results.Results (Sample.showing Sample.flagged [])) = false
  ∧ Results.listed_red_flags
      (Results.Results (Sample.showing Sample.flagged []))
    = TriageResult.red_flags Sample.flagged.
Proof.
  split; [reflexivity|].
  apply (alert_follows_emergency_detected
           (Sample.showing Sample.flagged []) Sample.flagged);
    reflexivity.
Defined.

(** The state a failed second submission leaves behind, and the page
    shown for it. *)
Example failed_again_state :
  state Sample.failed_again
  = {| App.triageResult := Some Sample.headache;
       App.facilities := Sample.four_clinics;
       App.loading := false;
       App.error := Some (lit "Failed to analyze symptoms") |}.
Proof. reflexivity. Qed.

Example failed_again_page :
  Results.Results (Results.of_app (state Sample.failed_again))
  = [Results.AnalysisError (lit "Failed to analyze symptoms")].
Proof. reflexivity. Qed.

(** C9, as stated, fails: after a failed second submission the stored
    list still has four facilities, and the results page, which shows
    the error, displays no facility card. *)
Lemma three_facility_cards_counterexample :
  ¬ (length (Results.facility_cards
               (Results.Results (Results.of_app (state Sample.failed_again))))
     = length (App.facilities (state Sample.failed_again)) `min` 3).
Proof. by vm_compute. Qed.

(** C9, amended: when the results page shows a result, it displays the
    first three facilities of the stored list, in list order, so
    min(length, 3) cards; while it is loading, shows an error or has no
    result, it displays no facility card. *)
Theorem three_facility_cards_when_shown props :
  (Results.shows_result props = true →
   Results.facility_cards (Results.Results props)
   = Results.render_facility <$> take 3 (Results.facilities props)
   ∧ length (Results.facility_cards (Results.Results props))
     = length (Results.facilities props) `min` 3)
  ∧ (Results.shows_result props = false →
     Results.facility_cards (Results.Results props) = []).
Proof.
  split.
  - intros Hshown.
    pose proof (shown_facility_cards props Hshown) as Hcards.
    split; [done|].
    rewrite Hcards, length_fmap, length_take. lia.
  - intros Hhidden.
    by destruct (early_return props Hhidden) as [->|[[message ->]| ->]].
Qed.

Lemma three_facility_cards_when_shown_witness :
  Results.shows_result (Sample.showing Sample.headache Sample.four_clinics)
  = true
  ∧ Results.card_name
    <$> Results.facility_cards
          (Results.Results
             (Sample.showing Sample.headache Sample.four_clinics))
    = [lit "A"; lit "B"; lit "C"].
Proof.
  split; [reflexivity|].
  destruct (three_facility_cards_when_shown
              (Sample.showing Sample.headache Sample.four_clinics))
    as [Hshown _].
  destruct (Hshown eq_refl) as [-> _]. reflexivity.
Defined.

(** ** The two urgency renderers *)

(** C4, as stated, fails: the score 8 lies between 1 and 10, the results
    page colours it yellow and the desk badge red. *)
Lemma renderers_agree_counterexample :
  ¬ (num 1 ≤ num 8 → num 8 ≤ num 10 →
     severity_of_class (Results.getUrgencyColor (num 8))
     = severity_of_class (HealthDesk.urgency_badge_class (num 8))).
Proof.
  intros Hclaim.
  by specialize (Hclaim (num_le 1 8 ltac:(lia)) (num_le 8 10 ltac:(lia))).
Qed.

(** C4, amended: the two renderers give a score the same severity class
    exactly when the score is 9 or more, from 7 up to 8, or below 5.
    Among the integer scores 1 to 10 they agree on all but 5, 6 and 8. *)
Theorem renderers_agree_outside_gaps score :
  (severity_of_class (Results.getUrgencyColor score)
   = severity_of_class (HealthDesk.urgency_badge_class score)
   ↔ num 9 ≤ score ∨ (num 7 ≤ score ∧ score < num 8) ∨ score < num 5)
  ∧ ∀ z : Z,
      score = num z → (1 ≤ z ≤ 10)%Z →
      (severity_of_class (Results.getUrgencyColor score)
       = severity_of_class (HealthDesk.urgency_badge_class score)
       ↔ z ≠ 5%Z ∧ z ≠ 6%Z ∧ z ≠ 8%Z).
Proof.
  split.
  - unfold Results.getUrgencyColor, HealthDesk.urgency_badge_class.
    repeat case_bool_decide; cbn;
      (split; [intros ?; simplify_eq|intros ?]); try done; order_Qc.
  - intros z -> Hz.
    assert (z = 1 ∨ z = 2 ∨ z = 3 ∨ z = 4 ∨ z = 5 ∨ z = 6 ∨ z = 7 ∨ z = 8
            ∨ z = 9 ∨ z = 10)%Z as Hcases by lia.
    repeat (destruct Hcases as [->|Hcases]); [..|subst z];
      (split; [intros Heq|intros (? & ? & ?)]); try done;
      by vm_compute in Heq.
Qed.

Lemma renderers_agree_outside_gaps_witness :
  (1 ≤ 7 ≤ 10)%Z
  ∧ severity_of_class (Results.getUrgencyColor (num 7))
    = severity_of_class (HealthDesk.urgency_badge_class (num 7)).
Proof.
  split; [lia|].
  destruct (renderers_agree_outside_gaps (num 7)) as [_ Hintegers].
  apply (Hintegers 7%Z eq_refl); [lia|].
  repeat split; discriminate.
Defined.

(** ** The facilities page *)

Section facilities_page.

Implicit Types (found listed : list Facility.t) (f g : Facility.t).

Local Instance nearer_preorder : PreOrder Backend.nearer.
Proof.
  split.
  - intros f. unfold Backend.nearer. done.
  - intros f g h. unfold Backend.nearer. apply Qcle_trans.
Qed.

Local Instance nearer_total : Total Backend.nearer.
Proof. intros f g. unfold Backend.nearer. apply (total Qcle). Qed.

(** In a sorted list, an earlier entry is at most as far as a later
    one. *)
Lemma sorted_lookup listed i j f g :
  StronglySorted Backend.nearer listed →
  (i ≤ j)%nat → listed !! i = Some f → listed !! j = Some g →
  Backend.nearer f g.
Proof.
  intros Hsorted. revert i j.
  induction Hsorted as [|h listed Hsorted IH Hall]; intros i j Hij Hi Hj;
    [done|].
  destruct i as [|i], j as [|j]; simplify_eq/=; [done| |lia|].
  - rewrite Forall_forall in Hall. apply Hall.
    by eapply list_elem_of_lookup_2.
  - apply (IH i j); [lia|done..].
Qed.

(** The page lists the facilities in the order it received them. *)
Lemma render_entries_order listed :
  Facilities.facility <$> Facilities.render_entries listed = listed.
Proof.
  unfold Facilities.render_entries. rewrite fmap_imap.
  rewrite <-(list_fmap_id listed) at 2. rewrite <-imap_const.
  by apply imap_ext.
Qed.

(** The first entry of the page carries the "Recommended" badge, and no
    other entry does. *)
Lemma render_entries_head f listed :
  ∃ first rest,
    Facilities.render_entries (f :: listed) = first :: rest
    ∧ Facilities.facility first = f
    ∧ Facilities.recommended first = true
    ∧ Forall (λ e, Facilities.recommended e = false) rest.
Proof.
  unfold Facilities.render_entries. simpl.
  eexists _, _. split_and!; [done..|].
  apply Forall_forall.
  by intros e (i & g & -> & _)%elem_of_lookup_imap.
Qed.

(** C5: the list the facility search returns holds the facilities that
    were found, sorted by distance: [distance_km] never decreases along
    it.  The facilities page that is given this list says that nothing
    was found when the list is empty; otherwise it shows every facility
    of the list, in that order, and its first entry carries the
    "Recommended" badge, is the only one that does, and is at most as
    far as any facility found. *)
Theorem facility_search_nearest_first found :
  let listed := Backend.facility_search found in
  let page := Facilities.Facilities listed false in
  listed ≡ₚ found
  ∧ (∀ i j f g,
       (i ≤ j)%nat → listed !! i = Some f → listed !! j = Some g →
       Facility.distance_km f ≤ Facility.distance_km g)
  ∧ (found = [] → page = Facilities.NoFacilitiesFound)
  ∧ (found ≠ [] →
     ∃ first rest,
       page = Facilities.Found (length found) (first :: rest)
       ∧ Facilities.facility <$> first :: rest = listed
       ∧ Facilities.recommended first = true
       ∧ Forall (λ e, Facilities.recommended e = false) rest
       ∧ ∀ g, g ∈ found →
              Facility.distance_km (Facilities.facility first)
              ≤ Facility.distance_km g).
Proof.
  intros listed page.
  assert (listed ≡ₚ found) as Hperm by apply merge_sort_Permutation.
  assert (StronglySorted Backend.nearer listed) as Hsorted
    by (apply StronglySorted_merge_sort; apply _).
  split_and!; [done| | |].
  - intros i j f g. apply sorted_lookup, Hsorted.
  - intros ->. apply Permutation_nil_r in Hperm. subst page.
    by rewrite Hperm.
  - intros Hfound. subst page.
    rewrite <-(Permutation_length Hperm).
    destruct listed as [|nearest others] eqn:Hlisted.
    { by apply Permutation_nil_l in Hperm. }
    destruct (render_entries_head nearest others)
      as (first & rest & Hentries & Hfirst & Hrec & Hrest).
    exists first, rest. rewrite <-Hentries.
    split_and!; [done|apply render_entries_order|done..|].
    intros g Hg. rewrite <-Hperm in Hg.
    apply list_elem_of_lookup in Hg as [j Hj].
    rewrite Hfirst.
    by apply (sorted_lookup (nearest :: others) 0 j _ _ Hsorted); [lia|..].
Qed.

Lemma facility_search_nearest_first_witness :
  ∃ first rest,
    Facilities.Facilities
      (Backend.facility_search
         [Sample.clinic "C" (num 3); Sample.clinic "A" (num 1);
          Sample.clinic "B" (num 2)]) false
    = Facilities.Found 3 (first :: rest)
    ∧ Facility.name <$> (Facilities.facility <$> first :: rest)
      = [lit "A"; lit "B"; lit "C"]
    ∧ Facilities.recommended first = true
    ∧ Facility.distance_km (Facilities.facility first) ≤ num 2.
Proof.
  destruct (facility_search_nearest_first
              [Sample.clinic "C" (num 3); Sample.clinic "A" (num 1);
               Sample.clinic "B" (num 2)])
    as (_ & _ & _ & Hpage).
  destruct Hpage as (first & rest & Hpage & Horder & Hrec & _ & Hnearest);
    [done|].
  exists first, rest. split_and!; [exact Hpage| |exact Hrec|].
  - rewrite Horder. reflexivity.
  - apply (Hnearest (Sample.clinic "B" (num 2))).
    apply list_elem_of_In. simpl. tauto.
Defined.

End facilities_page.

(** ** The emergency override *)

(** C1: when the symptom text contains a phrase of the emergency keyword
    table, whatever its category, the overridden triage result has
    urgency score 10 and is marked as an emergency; the results page
    showing it labels it IMMEDIATE and carries the EMERGENCY DETECTED
    alert that tells to call 108. *)
Theorem emergency_keyword_forces_ten text category phrases phrase r :
  (category, phrases) ∈ Backend.EMERGENCY_KEYWORDS →
  phrase ∈ phrases →
  (∃ before after, text = before ++ lit phrase ++ after) →
  let overridden := Backend.emergency_override text r in
  TriageResult.urgency_score overridden = num 10
  ∧ TriageResult.emergency_detected overridden = true
  ∧ ∀ props,
      Results.shows_result props = true →
      Results.triageResult props = Some overridden →
      Results.urgency_badge (Results.Results props)
      = Some ("text-red-600 bg-red-100", "IMMEDIATE")
      ∧ Results.shows_emergency_alert (Results.Results props) = true.
Proof.
  intros Hcategory Hphrase Hcontains overridden.
  assert (Backend.detect_emergency text = true) as Hdetected.
  { unfold Backend.detect_emergency. apply existsb_exists.
    exists phrase. split; [|by apply includes_spec].
    apply list_elem_of_In. unfold Backend.emergency_phrases.
    apply list_elem_of_bind. by exists (category, phrases). }
  assert (TriageResult.urgency_score overridden = num 10
          ∧ TriageResult.emergency_detected overridden = true)
    as [Hscore Hemergency]
    by (unfold overridden, Backend.emergency_override;
        by rewrite Hdetected).
  split_and!; [done..|].
  intros props Hshown Hprops.
  rewrite (shown_badge props overridden), (shown_alert props overridden)
    by done.
  by rewrite Hscore, Hemergency.
Qed.

Lemma emergency_keyword_forces_ten_witness :
  includes (lit "chest pain") (lit "I have chest pain since morning") = true
  ∧ TriageResult.urgency_score
      (Backend.emergency_override (lit "I have chest pain since morning")
                                  Sample.headache) = num 10
  ∧ Results.shows_emergency_alert
      (Results.Results
         (Sample.showing
            (Backend.emergency_override
               (lit "I have chest pain since morning") Sample.headache)
            [])) = true.
Proof.
  split; [reflexivity|].
  destruct (emergency_keyword_forces_ten
              (lit "I have chest pain since morning") "cardiac"
              ["chest pain"; "heart attack"; "crushing chest pressure";
               "pain radiating to arm/jaw"; "severe palpitations"]
              "chest pain" Sample.headache)
    as (Hscore & _ & Hpage).
  - apply list_elem_of_In. simpl. tauto.
  - apply list_elem_of_In. simpl. tauto.
  - by exists (lit "I have "), (lit " since morning").
  - split; [exact Hscore|].
    by apply (Hpage (Sample.showing _ [])).
Defined.


(** * Further properties of the front end *)

(** ** The submit handler, whatever the backend does *)

(** X1: However the backend answers, [handleTriageSubmit] returns normally
    with [loading] back to false and the route untouched; it sends the
    triage request and at most one more request, after the ones already
    on the trace. *)
Theorem submit_always_settles net symptoms location w :
  (App.handleTriageSubmit net symptoms location w).1 = inr ()
  ∧ App.loading
      (state (after (App.handleTriageSubmit net symptoms location) w))
    = false
  ∧ route (after (App.handleTriageSubmit net symptoms location) w) = route w
  ∧ requests (after (App.handleTriageSubmit net symptoms location) w)
    = requests w ++ issued (App.handleTriageSubmit net symptoms location) w
  ∧ (1 ≤ length (issued (App.handleTriageSubmit net symptoms location) w)
     ≤ 2)%nat.
Proof.
  run_handler.
  on_reply (Http.triage_text net) (App.triage_request symptoms location);
    try (rewrite drop_app_length; simpl; split_and!; (done || lia)).
  destruct (truthy_opt location); cbn -[lit].
  - on_reply (Http.facilities net) (App.facilities_request location);
      rewrite <-app_assoc, drop_app_length; simpl; split_and!; (done || lia).
  - rewrite drop_app_length; simpl; split_and!; (done || lia).
Qed.

(** X2: Every failure of the triage request (the network fails, the status
    is not ok, or the body does not parse) leaves the stored result and
    the facilities list as they were, sends that one request only and
    sets the error to the failure's message. *)
Theorem triage_failure_keeps_state net symptoms location w :
  (∀ r, Http.triage_text net (App.triage_request symptoms location)
        ≠ Http.Responded true (inr r)) →
  App.handleTriageSubmit net symptoms location w
  = (inr (),
     {| state :=
          {| App.triageResult := App.triageResult (state w);
             App.facilities := App.facilities (state w);
             App.loading := false;
             App.error :=
               Some match Http.triage_text net
                            (App.triage_request symptoms location) with
                    | Http.Rejected message => message
                    | Http.Responded true (inl message) => message
                    | _ => lit "Failed to analyze symptoms"
                    end |};
        route := route w;
        requests := requests w ++ [App.triage_request symptoms location] |}).
Proof.
  intros Hfailed. run_handler.
  on_reply (Http.triage_text net) (App.triage_request symptoms location);
    try done.
  by destruct (Hfailed t).
Qed.

Lemma triage_failure_keeps_state_witness :
  App.handleTriageSubmit
    {| Http.triage_text := λ _, Http.Rejected (lit "Failed to fetch");
       Http.facilities := λ _, Http.Rejected (lit "Failed to fetch") |}
    (lit "fever") (Some (lit "Pune")) Sample.served
  = (inr (),
     {| state :=
          {| App.triageResult := Some Sample.headache;
             App.facilities := Sample.four_clinics;
             App.loading := false;
             App.error := Some (lit "Failed to fetch") |};
        route := "/results";
        requests :=
          requests Sample.served
          ++ [App.triage_request (lit "fever") (Some (lit "Pune"))] |}).
Proof.
  by apply (triage_failure_keeps_state
              {| Http.triage_text := λ _, Http.Rejected (lit "Failed to fetch");
                 Http.facilities :=
                   λ _, Http.Rejected (lit "Failed to fetch") |}
              (lit "fever") (Some (lit "Pune")) Sample.served).
Defined.

(** X3: A submission that succeeds stores the new result and clears an
    error left by an earlier one.  Without a location the facilities
    list stays; with a location and a facilities reply that is ok and
    parses, the list is replaced. *)
Theorem success_replaces_result_and_clears_error
    net symptoms location w r :
  Http.triage_text net (App.triage_request symptoms location)
  = Http.Responded true (inr r) →
  (truthy_opt location = false →
   state (after (App.handleTriageSubmit net symptoms location) w)
   = {| App.triageResult := Some r;
        App.facilities := App.facilities (state w);
        App.loading := false; App.error := None |})
  ∧ (∀ l, truthy_opt location = true →
          Http.facilities net (App.facilities_request location)
          = Http.Responded true (inr l) →
          state (after (App.handleTriageSubmit net symptoms location) w)
          = {| App.triageResult := Some r; App.facilities := l;
               App.loading := false; App.error := None |}).
Proof.
  intros Hr. split.
  - intros Hlocation. run_handler. rewrite Hr. cbn. by rewrite Hlocation.
  - intros l Hlocation Hl. run_handler. rewrite Hr. cbn.
    rewrite Hlocation. cbn. by rewrite Hl.
Qed.

Lemma success_replaces_result_and_clears_error_witness :
  App.error (state Sample.failed_again)
  = Some (lit "Failed to analyze symptoms")
  ∧ state (after (App.handleTriageSubmit Sample.backend_up
                    (lit "mild headache") None) Sample.failed_again)
    = {| App.triageResult := Some Sample.headache;
         App.facilities := Sample.four_clinics;
         App.loading := false; App.error := None |}.
Proof.
  split; [reflexivity|].
  destruct (success_replaces_result_and_clears_error Sample.backend_up
              (lit "mild headache") None Sample.failed_again Sample.headache
              eq_refl) as [Hstate _].
  by rewrite Hstate.
Defined.

(** X4: A facilities reply whose status is not ok is passed over in
    silence: the triage result is stored, the list stays as it was and
    no error is set. *)
Theorem facilities_not_ok_is_silent net symptoms location w r parsed :
  truthy_opt location = true →
  Http.triage_text net (App.triage_request symptoms location)
  = Http.Responded true (inr r) →
  Http.facilities net (App.facilities_request location)
  = Http.Responded false parsed →
  App.handleTriageSubmit net symptoms location w
  = (inr (),
     {| state :=
          {| App.triageResult := Some r;
             App.facilities := App.facilities (state w);
             App.loading := false; App.error := None |};
        route := route w;
        requests := requests w ++ [App.triage_request symptoms location;
                                   App.facilities_request location] |}).
Proof.
  intros Hlocation Hr Hl. run_handler. rewrite Hr. cbn.
  rewrite Hlocation. cbn. rewrite Hl. cbn. by rewrite <-app_assoc.
Qed.

Lemma facilities_not_ok_is_silent_witness :
  App.handleTriageSubmit
    {| Http.triage_text := λ _, Http.Responded true (inr Sample.headache);
       Http.facilities := λ _, Http.Responded false (inr []) |}
    (lit "mild headache") (Some (lit "Pune")) Sample.fresh
  = (inr (),
     {| state :=
          {| App.triageResult := Some Sample.headache;
             App.facilities := [];
             App.loading := false; App.error := None |};
        route := "/triage";
        requests :=
          [App.triage_request (lit "mild headache") (Some (lit "Pune"));
           App.facilities_request (Some (lit "Pune"))] |}).
Proof.
  by apply (facilities_not_ok_is_silent
              {| Http.triage_text :=
                   λ _, Http.Responded true (inr Sample.headache);
                 Http.facilities := λ _, Http.Responded false (inr []) |}
              (lit "mild headache") (Some (lit "Pune")) Sample.fresh
              Sample.headache (inr [])).
Defined.

(** X5: When the facilities request is rejected, or its ok reply does not
    parse, the triage result is already stored but the failure's message
    becomes the error: the results page then shows the error card and
    not the result. *)
Theorem facilities_failure_hides_result
    net symptoms location w r message :
  truthy_opt location = true →
  Http.triage_text net (App.triage_request symptoms location)
  = Http.Responded true (inr r) →
  Http.facilities net (App.facilities_request location)
  = Http.Rejected message
  ∨ Http.facilities net (App.facilities_request location)
    = Http.Responded true (inl message) →
  truthy message = true →
  state (after (App.handleTriageSubmit net symptoms location) w)
  = {| App.triageResult := Some r;
       App.facilities := App.facilities (state w);
       App.loading := false; App.error := Some message |}
  ∧ Results.Results
      (Results.of_app
         (state (after (App.handleTriageSubmit net symptoms location) w)))
    = [Results.AnalysisError message].
Proof.
  intros Hlocation Hr Hl Hmessage.
  assert (state (after (App.handleTriageSubmit net symptoms location) w)
          = {| App.triageResult := Some r;
               App.facilities := App.facilities (state w);
               App.loading := false; App.error := Some message |}) as ->.
  { run_handler. rewrite Hr. cbn. rewrite Hlocation. cbn.
    by destruct Hl as [-> | ->]. }
  split; [done|]. by destruct message.
Qed.

Lemma facilities_failure_hides_result_witness :
  Results.Results
    (Results.of_app
       (state (after (App.handleTriageSubmit
                        {| Http.triage_text :=
                             λ _, Http.Responded true (inr Sample.headache);
                           Http.facilities :=
                             λ _, Http.Rejected (lit "Failed to fetch") |}
                        (lit "mild headache") (Some (lit "Pune")))
                     Sample.fresh)))
  = [Results.AnalysisError (lit "Failed to fetch")].
Proof.
  by apply (facilities_failure_hides_result
              {| Http.triage_text :=
                   λ _, Http.Responded true (inr Sample.headache);
                 Http.facilities :=
                   λ _, Http.Rejected (lit "Failed to fetch") |}
              (lit "mild headache") (Some (lit "Pune")) Sample.fresh
              Sample.headache (lit "Failed to fetch") eq_refl eq_refl
              (or_introl eq_refl) eq_refl).
Defined.

(** ** The two forms *)

(** The submit handler leaves the route alone. *)
Lemma handleTriageSubmit_route net symptoms location w :
  route (after (App.handleTriageSubmit net symptoms location) w) = route w.
Proof.
  run_handler.
  on_reply (Http.triage_text net) (App.triage_request symptoms location);
    try done.
  destruct (truthy_opt location); cbn -[lit]; [|done].
  on_reply (Http.facilities net) (App.facilities_request location); done.
Qed.

(** X7: The triage form goes to /results exactly when it submits, that is
    when the trimmed symptoms are not empty; the dashboard form never
    leaves its route.  Apart from the route the two forms do the same:
    same state, same requests. *)
Theorem forms_differ_in_route_only net symptoms location w :
  route (after (Routes.triage_form_submit net symptoms location) w)
  = (if whitespace_only symptoms then route w else "/results")
  ∧ route (after (Routes.dashboard_submit net symptoms location) w)
    = route w
  ∧ state (after (Routes.triage_form_submit net symptoms location) w)
    = state (after (Routes.dashboard_submit net symptoms location) w)
  ∧ requests (after (Routes.triage_form_submit net symptoms location) w)
    = requests (after (Routes.dashboard_submit net symptoms location) w).
Proof.
  pose proof (handleTriageSubmit_route net (trim symptoms)
                (or_undefined (trim location)) w) as Hroute.
  unfold after in *.
  unfold Routes.triage_form_submit, Routes.dashboard_submit,
    TriageForm.handleSubmit, Dashboard.handleSubmit, when, bind, detached,
    navigate, ret.
  rewrite truthy_trim. by destruct (whitespace_only symptoms).
Qed.

(** X8: A location of white space only counts as no location: the form
    sends the one triage request, whose body carries the symptoms only,
    and the facilities list stays as it was. *)
Theorem blank_location_is_no_location net submit symptoms location w :
  submit = Routes.triage_form_submit ∨ submit = Routes.dashboard_submit →
  whitespace_only symptoms = false →
  whitespace_only location = true →
  issued (submit net symptoms location) w
  = [{| Http.url := "http://localhost:8000/triage/text";
        Http.method := "POST";
        Http.headers := [("Content-Type", "application/json")];
        Http.body := JObject [("symptoms", JString (trim symptoms))] |}]
  ∧ App.facilities (state (after (submit net symptoms location) w))
    = App.facilities (state w).
Proof.
  intros Hsubmit Hsymptoms Hlocation.
  apply trim_nil in Hlocation.
  assert (truthy (trim symptoms) = true) as Htruthy
    by (by rewrite truthy_trim, Hsymptoms).
  destruct Hsubmit as [-> | ->];
    unfold issued, after, Routes.triage_form_submit, Routes.dashboard_submit,
      TriageForm.handleSubmit, Dashboard.handleSubmit, when, bind, detached,
      navigate;
    rewrite Htruthy, Hlocation; run_handler;
    (on_reply (Http.triage_text net) (App.triage_request (trim symptoms) None);
     by rewrite drop_app_length).
Qed.

Lemma blank_location_is_no_location_witness :
  issued (Routes.dashboard_submit Sample.backend_up (lit "fever") [32; 9]%N)
         Sample.served
  = [App.triage_request (lit "fever") None]
  ∧ App.facilities
      (state (after (Routes.dashboard_submit Sample.backend_up (lit "fever")
                       [32; 9]%N) Sample.served))
    = Sample.four_clinics.
Proof.
  by apply (blank_location_is_no_location Sample.backend_up
              Routes.dashboard_submit (lit "fever") [32; 9]%N Sample.served
              (or_intror eq_refl) eq_refl eq_refl).
Defined.

(** ** The search form of the facilities page *)

Ltac run_search :=
  unfold issued, after, FacilitiesPage.handleSearch,
    FacilitiesPage.try_catch, bind, when, fetch, json, throw, ret, get,
    FacilitiesPage.setFilteredFacilities, FacilitiesPage.console_error,
    modify;
  cbn -[lit trim FacilitiesPage.search_request].

(** X10: A search for a blank location (empty or white space only) does
    nothing at all: no request, no change of the list. *)
Theorem blank_search_does_nothing net (w : world FacilitiesPage.State) :
  whitespace_only (FacilitiesPage.searchLocation (state w)) = true →
  FacilitiesPage.handleSearch net w = (inr (), w).
Proof.
  intros Hblank. run_search. by rewrite truthy_trim, Hblank.
Qed.

Lemma blank_search_does_nothing_witness :
  FacilitiesPage.handleSearch Sample.backend_up
    {| state := {| FacilitiesPage.searchLocation := [32; 32]%N;
                   FacilitiesPage.filteredFacilities := Sample.four_clinics;
                   FacilitiesPage.console := [] |};
       route := "/facilities"; requests := [] |}
  = (inr (),
     {| state := {| FacilitiesPage.searchLocation := [32; 32]%N;
                    FacilitiesPage.filteredFacilities := Sample.four_clinics;
                    FacilitiesPage.console := [] |};
        route := "/facilities"; requests := [] |}).
Proof.
  by apply (blank_search_does_nothing Sample.backend_up
              {| state :=
                   {| FacilitiesPage.searchLocation := [32; 32]%N;
                      FacilitiesPage.filteredFacilities :=
                        Sample.four_clinics;
                      FacilitiesPage.console := [] |};
                 route := "/facilities"; requests := [] |}).
Defined.

(** X11: A search for any other location sends one request, the very
    request the submit handler sends for a location, with the text as
    typed (not trimmed).  It always returns normally.  Only a reply that
    is ok and parses replaces the displayed list; a reply that is not
    ok changes nothing and leaves no trace, a rejected request or an
    unparsable body changes nothing but a line on the console. *)
Theorem search_replaces_list_only_on_success
    net (w : world FacilitiesPage.State) :
  whitespace_only (FacilitiesPage.searchLocation (state w)) = false →
  let location := FacilitiesPage.searchLocation (state w) in
  let reply := Http.facilities net (App.facilities_request (Some location)) in
  FacilitiesPage.handleSearch net w
  = (inr (),
     {| state :=
          {| FacilitiesPage.searchLocation := location;
             FacilitiesPage.filteredFacilities :=
               match reply with
               | Http.Responded true (inr data) => data
               | _ => FacilitiesPage.filteredFacilities (state w)
               end;
             FacilitiesPage.console :=
               FacilitiesPage.console (state w)
               ++ match reply with
                  | Http.Rejected message
                  | Http.Responded true (inl message) =>
                      [ErrorObject message]
                  | _ => []
                  end |};
        route := route w;
        requests := requests w ++ [App.facilities_request (Some location)] |}).
Proof.
  intros Hblank location reply.
  assert (FacilitiesPage.search_request location
          = App.facilities_request (Some location)) as Hrequest by done.
  run_search. rewrite truthy_trim, Hblank. cbn -[lit trim].
  fold location. rewrite Hrequest. fold reply.
  destruct reply as [message|[] [message|data]];
    cbn; rewrite ?app_nil_r; by destruct w as [[] ? ?].
Qed.

Lemma search_replaces_list_only_on_success_witness :
  FacilitiesPage.filteredFacilities
    (state (after (FacilitiesPage.handleSearch Sample.backend_up)
              {| state := {| FacilitiesPage.searchLocation := lit " Pune";
                             FacilitiesPage.filteredFacilities := [];
                             FacilitiesPage.console := [] |};
                 route := "/facilities"; requests := [] |}))
  = Sample.four_clinics.
Proof.
  unfold after.
  by rewrite (search_replaces_list_only_on_success Sample.backend_up
                {| state := {| FacilitiesPage.searchLocation := lit " Pune";
                               FacilitiesPage.filteredFacilities := [];
                               FacilitiesPage.console := [] |};
                   route := "/facilities"; requests := [] |} eq_refl).
Defined.

(** X12: The list of the facilities page: a spinner while loading, whatever
    the list; "No Facilities Found" on an empty list; otherwise every
    facility in the order received, numbered 1, 2, 3, ..., the count in
    the heading, and the "Recommended" badge on the first entry and on
    no other. *)
Theorem facilities_page_numbering (l : list Facility.t) :
  Facilities.Facilities l true = Facilities.FindingFacilities
  ∧ (l = [] →
     Facilities.Facilities l false = Facilities.NoFacilitiesFound)
  ∧ (l ≠ [] →
     Facilities.Facilities l false
     = Facilities.Found (length l) (Facilities.render_entries l))
  ∧ Facilities.facility <$> Facilities.render_entries l = l
  ∧ Facilities.priority <$> Facilities.render_entries l = seq 1 (length l)
  ∧ ∀ i e, Facilities.render_entries l !! i = Some e →
           (Facilities.recommended e = true ↔ i = 0%nat).
Proof.
  split_and!; [done|by intros ->|by destruct l|apply render_entries_order|..].
  - apply list_eq. intros i. unfold Facilities.render_entries.
    rewrite list_lookup_fmap, list_lookup_imap.
    destruct (l !! i) as [f|] eqn:Hi; simpl.
    + apply lookup_lt_Some in Hi. rewrite lookup_seq_lt by done.
      f_equal. lia.
    + apply lookup_ge_None in Hi. by rewrite lookup_seq_ge.
  - unfold Facilities.render_entries. intros i e.
    rewrite list_lookup_imap_Some. intros (f & _ & ->). simpl.
    apply bool_decide_eq_true.
Qed.

(** ** The desk variant *)

Ltac run_desk :=
  unfold issued, after, HealthDesk.handleTextTriage,
    try_catch_finally, bind, when, fetch, json, throw, ret, get,
    HealthDesk.setLoading, HealthDesk.setError, HealthDesk.setResult, modify;
  cbn -[lit trim HealthDesk.triage_request].

(** X13: With symptoms that are not blank, the desk clears its stored result
    before it asks: a reply that is ok and parses becomes the new
    result, and after any failure the old result is gone and the
    failure's message is the error.  Either way the desk returns
    normally with [loading] false, having sent one request. *)
Theorem desk_clears_result_before_asking
    parseFloat net (d : world HealthDesk.DeskState) :
  whitespace_only (HealthDesk.textSymptoms (state d)) = false →
  let reply :=
    Http.triage_text net (HealthDesk.triage_request parseFloat (state d)) in
  HealthDesk.handleTextTriage parseFloat net d
  = (inr (),
     {| state :=
          {| HealthDesk.loading := false;
             HealthDesk.result :=
               match reply with
               | Http.Responded true (inr data) => Some data
               | _ => None
               end;
             HealthDesk.error :=
               match reply with
               | Http.Rejected message
               | Http.Responded true (inl message) => Some message
               | Http.Responded true (inr _) => None
               | Http.Responded false _ =>
                   Some (lit "Failed to analyze symptoms")
               end;
             HealthDesk.textSymptoms := HealthDesk.textSymptoms (state d);
             HealthDesk.location := HealthDesk.location (state d);
             HealthDesk.coordinates := HealthDesk.coordinates (state d) |};
        route := route d;
        requests :=
          requests d ++ [HealthDesk.triage_request parseFloat (state d)] |}).
Proof.
  intros Hblank reply. run_desk. rewrite truthy_trim, Hblank.
  cbn -[lit trim HealthDesk.triage_request]. fold reply.
  by destruct reply as [message|[] [message|data]].
Qed.

Lemma desk_clears_result_before_asking_witness :
  HealthDesk.result
    (state (after (HealthDesk.handleTextTriage (λ _, None)
                     Sample.backend_down)
              {| state :=
                   {| HealthDesk.loading := false;
                      HealthDesk.result := Some Sample.headache;
                      HealthDesk.error := None;
                      HealthDesk.textSymptoms := lit " fever ";
                      HealthDesk.location := [];
                      HealthDesk.coordinates :=
                        {| HealthDesk.latitude := [];
                           HealthDesk.longitude := [] |} |};
                 route := "/"; requests := [] |}))
  = None.
Proof.
  unfold after.
  by rewrite (desk_clears_result_before_asking (λ _, None)
                Sample.backend_down
                {| state :=
                     {| HealthDesk.loading := false;
                        HealthDesk.result := Some Sample.headache;
                        HealthDesk.error := None;
                        HealthDesk.textSymptoms := lit " fever ";
                        HealthDesk.location := [];
                        HealthDesk.coordinates :=
                          {| HealthDesk.latitude := [];
                             HealthDesk.longitude := [] |} |};
                   route := "/"; requests := [] |} eq_refl).
Defined.

(** X14: What the desk puts in the body of its triage request: the symptoms
    as typed, white space included; the location as typed unless it is
    the empty string; the coordinates only when both latitude and
    longitude are filled in, each as the number [parseFloat] reads or
    [null]. *)
Theorem desk_payload_fields parseFloat (s : HealthDesk.DeskState) :
  let body := Http.body (HealthDesk.triage_request parseFloat s) in
  JSONObject.property "symptoms" body
  = Some (JString (HealthDesk.textSymptoms s))
  ∧ JSONObject.property "location" body
    = (if truthy (HealthDesk.location s)
       then Some (JString (HealthDesk.location s)) else None)
  ∧ JSONObject.property "coordinates" body
    = (if truthy (HealthDesk.latitude (HealthDesk.coordinates s))
          && truthy (HealthDesk.longitude (HealthDesk.coordinates s))
       then Some (JObject
              [("latitude",
                HealthDesk.number_json parseFloat
                  (HealthDesk.latitude (HealthDesk.coordinates s)));
               ("longitude",
                HealthDesk.number_json parseFloat
                  (HealthDesk.longitude (HealthDesk.coordinates s)))])
       else None).
Proof.
  unfold HealthDesk.triage_request, HealthDesk.payload, stringify_object,
    or_undefined.
  cbn [Http.body].
  by destruct (truthy (HealthDesk.location s)),
       (truthy (HealthDesk.latitude (HealthDesk.coordinates s))),
       (truthy (HealthDesk.longitude (HealthDesk.coordinates s))).
Qed.

(** ** The recording clock *)

Section clock.

Implicit Types (n a b : nat).

Lemma lit_inj (s1 s2 : string) : lit s1 = lit s2 → s1 = s2.
Proof.
  unfold lit. intros Heq.
  apply (f_equal (fmap Ascii.ascii_of_N)) in Heq.
  rewrite <-!list_fmap_compose in Heq.
  rewrite !(list_fmap_ext (Ascii.ascii_of_N ∘ Ascii.N_of_ascii) id) in Heq
    by (intros; apply Ascii.ascii_N_embedding).
  rewrite !list_fmap_id in Heq.
  apply (f_equal String.string_of_list_ascii) in Heq.
  by rewrite !String.string_of_list_ascii_of_string in Heq.
Qed.

Lemma toString_inj a b : Clock.toString a = Clock.toString b → a = b.
Proof.
  unfold Clock.toString. intros Heq%lit_inj.
  apply DecimalNat.Unsigned.to_uint_inj.
  apply (f_equal DecimalString.NilEmpty.uint_of_string) in Heq.
  rewrite !DecimalString.NilEmpty.usu in Heq. by injection Heq.
Qed.

Lemma toString_digits n : forallb Clock.is_digit (Clock.toString n) = true.
Proof.
  unfold Clock.toString. generalize (Nat.to_uint n). intros d.
  induction d; simpl; by rewrite ?IHd.
Qed.

(** The seconds field, for each of the sixty values it takes. *)
Lemma seconds_field n :
  (n < 60)%nat →
  length (Clock.padStart 2 (lit "0") (Clock.toString n)) = 2%nat
  ∧ forallb Clock.is_digit (Clock.padStart 2 (lit "0") (Clock.toString n))
    = true.
Proof.
  intros Hn.
  assert (forallb (λ i,
            bool_decide
              (length (Clock.padStart 2 (lit "0") (Clock.toString i)) = 2%nat)
            && forallb Clock.is_digit
                 (Clock.padStart 2 (lit "0") (Clock.toString i)))
            (seq 0 60) = true) as Hall by (by vm_compute).
  rewrite forallb_forall in Hall.
  specialize (Hall n). rewrite in_seq in Hall.
  specialize (Hall ltac:(lia)).
  apply andb_true_iff in Hall as [Hlen Hdigits].
  by apply bool_decide_eq_true in Hlen.
Qed.

Lemma seconds_field_inj a b :
  (a < 60)%nat → (b < 60)%nat →
  Clock.padStart 2 (lit "0") (Clock.toString a)
  = Clock.padStart 2 (lit "0") (Clock.toString b) →
  a = b.
Proof.
  intros Ha Hb.
  assert (forallb (λ i, forallb (λ j,
            implb (bool_decide
                     (Clock.padStart 2 (lit "0") (Clock.toString i)
                      = Clock.padStart 2 (lit "0") (Clock.toString j)))
                  (i =? j)%nat) (seq 0 60)) (seq 0 60) = true) as Hall
    by (by vm_compute).
  rewrite forallb_forall in Hall.
  specialize (Hall a). rewrite in_seq in Hall.
  specialize (Hall ltac:(lia)). rewrite forallb_forall in Hall.
  specialize (Hall b). rewrite in_seq in Hall.
  specialize (Hall ltac:(lia)).
  intros Heq. rewrite bool_decide_true in Hall by done.
  by apply Nat.eqb_eq.
Qed.

(** X16: The clock text is the minutes in decimal, a colon and a seconds
    field of exactly two digits. *)
Theorem clock_text_shape n :
  ∃ minutes seconds,
    Clock.formatTime n = minutes ++ lit ":" ++ seconds
    ∧ minutes = Clock.toString (n / 60)
    ∧ forallb Clock.is_digit minutes = true
    ∧ length seconds = 2%nat
    ∧ forallb Clock.is_digit seconds = true.
Proof.
  exists (Clock.toString (n / 60)),
         (Clock.padStart 2 (lit "0") (Clock.toString (n mod 60))).
  pose proof (seconds_field (n mod 60)) as [Hlen Hdigits];
    [by apply Nat.mod_upper_bound|].
  split_and!; [done|done|apply toString_digits|done|done].
Qed.

(** X17: Two different durations never show the same clock text, on the
    voice input page and on the desk alike: the text determines the
    number of seconds. *)
Theorem clock_text_determines_seconds a b :
  (Clock.formatTime a = Clock.formatTime b → a = b)
  ∧ (Clock.formatDuration a = Clock.formatDuration b → a = b)
  ∧ Clock.formatDuration a = Clock.formatTime a.
Proof.
  assert (Clock.formatTime a = Clock.formatTime b → a = b) as Hinj.
  { unfold Clock.formatTime. intros Heq.
    pose proof (seconds_field (a mod 60)) as [Hla _];
      [by apply Nat.mod_upper_bound|].
    pose proof (seconds_field (b mod 60)) as [Hlb _];
      [by apply Nat.mod_upper_bound|].
    rewrite !app_assoc in Heq.
    apply app_inj_2 in Heq as [Hminutes Hseconds]; [|congruence].
    apply app_inj_tail in Hminutes as [Hminutes%toString_inj _].
    apply seconds_field_inj in Hseconds;
      [|by apply Nat.mod_upper_bound..].
    rewrite (Nat.div_mod_eq a 60), (Nat.div_mod_eq b 60). congruence. }
  split_and!; done.
Qed.

Lemma clock_text_determines_seconds_witness :
  Clock.formatTime 125 = lit "2:05"
  ∧ (Clock.formatTime 125 = Clock.formatTime (2 * 60 + 5) → 125 = 2 * 60 + 5)%nat.
Proof.
  split; [reflexivity|].
  by destruct (clock_text_determines_seconds 125 (2 * 60 + 5)) as [Hinj _].
Defined.

End clock.

(** ** The voice page *)

Ltac run_voice :=
  unfold issued, after, VoiceRoute.voice_input_submit,
    VoiceInput.handleSubmit, Voice.handleVoiceSubmit,
    Voice.get_triage_result, Voice.on_app, Voice.fetch_form,
    Voice.fetch_form_with, try_catch_finally, bind, when, detached, json,
    throw, ret, navigate, App.setLoading, App.setError,
    App.setTriageResult, modify;
  cbn -[lit Voice.voice_request].

(** X18: A voice submission sends one upload and no JSON request.  The
    upload names the file recording.wav and states a duration of 10,
    whatever was recorded.  The facilities list is never touched.  A
    reply that is ok and parses to a value other than [null] replaces
    the stored result by its [triage_result] property, even when that
    property is missing.  Every failure leaves the stored result and
    sets the error: a rejected request, a reply that is not ok, a body
    that does not parse, and the body [null], for which reading
    [triage_result] throws a TypeError.  The handler always returns
    normally with [loading] false. *)
Theorem voice_submission_outcome type_error server audioBlob language
    (w : world Voice.AppWorld) :
  let request :=
    {| Voice.url := "http://localhost:8000/triage/voice";
       Voice.method := "POST";
       Voice.form := [("audio_file", Voice.FormFile audioBlob "recording.wav");
                      ("language", Voice.FormText language);
                      ("duration", Voice.FormText (lit "10"))] |} in
  Voice.handleVoiceSubmit type_error server audioBlob language w
  = (inr (),
     {| state :=
          {| Voice.app :=
               {| App.triageResult :=
                    match server request with
                    | Http.Responded true (inr (Some result)) =>
                        Voice.triage_result result
                    | _ => App.triageResult (Voice.app (state w))
                    end;
                  App.facilities := App.facilities (Voice.app (state w));
                  App.loading := false;
                  App.error :=
                    match server request with
                    | Http.Rejected message
                    | Http.Responded true (inl message) => Some message
                    | Http.Responded true (inr (Some _)) => None
                    | Http.Responded true (inr None) => Some type_error
                    | Http.Responded false _ =>
                        Some (lit "Failed to process voice input")
                    end |};
             Voice.uploads := Voice.uploads (state w) ++ [request] |};
        route := route w;
        requests := requests w |}).
Proof.
  intros request. run_voice.
  change (Voice.voice_request audioBlob language) with request.
  by destruct (server request) as [message|[] [message|[result|]]].
Qed.

(** X19: From the voice page: with a recording the page goes to /results,
    and when the reply is ok but has no [triage_result] the stored
    result is lost and the results page says "No Results". *)
Theorem voice_reply_without_result_shows_no_results
    type_error server blob language (w : world Voice.AppWorld) :
  server (Voice.voice_request blob language)
  = Http.Responded true (inr (Some {| Voice.triage_result := None |})) →
  let w' := after (VoiceRoute.voice_input_submit type_error server
                     (Some blob) language) w in
  route w' = "/results"
  ∧ Results.Results (Results.of_app (Voice.app (state w')))
    = [Results.NoResults].
Proof.
  intros Hreply. run_voice. by rewrite Hreply.
Qed.

Lemma voice_reply_without_result_shows_no_results_witness :
  Results.Results
    (Results.of_app
       (Voice.app
          (state
             (after (VoiceRoute.voice_input_submit
                       (lit "Cannot read properties of null")
                       (λ _, Http.Responded true
                               (inr (Some {| Voice.triage_result := None |})))
                       (Some {| Voice.blob_type := "audio/wav";
                                Voice.blob_bytes := [82; 73; 70; 70]%N |})
                       (lit "hi"))
                    {| state := {| Voice.app := state Sample.served;
                                   Voice.uploads := [] |};
                       route := "/voice"; requests := [] |}))))
  = [Results.NoResults].
Proof.
  by apply (voice_reply_without_result_shows_no_results
              (lit "Cannot read properties of null")
              (λ _, Http.Responded true
                      (inr (Some {| Voice.triage_result := None |})))
              {| Voice.blob_type := "audio/wav";
                 Voice.blob_bytes := [82; 73; 70; 70]%N |}
              (lit "hi")
              {| state := {| Voice.app := state Sample.served;
                             Voice.uploads := [] |};
                 route := "/voice"; requests := [] |}).
Defined.

(** ** The disclaimer *)

(** X21: The splash screen shows on mounting exactly when the session has
    not stored its acceptance.  Accepting stores it without touching
    any other key of the session storage, so every later mount in the
    session skips the splash; opening or closing the footer never
    brings the splash back. *)
Theorem disclaimer_acceptance_persists
    (sessionStorage : gmap string string) (st : Disclaimer.State) :
  (Disclaimer.render (Disclaimer.mounted sessionStorage) = Disclaimer.Splash
   ↔ sessionStorage !! "disclaimerAccepted" ≠ Some "true")
  ∧ Disclaimer.render (Disclaimer.handleAccept sessionStorage st).1
    ≠ Disclaimer.Splash
  ∧ Disclaimer.render
      (Disclaimer.mounted (Disclaimer.handleAccept sessionStorage st).2)
    = Disclaimer.SmallBar
  ∧ (∀ key, key ≠ "disclaimerAccepted" →
            (Disclaimer.handleAccept sessionStorage st).2 !! key
            = sessionStorage !! key)
  ∧ (∀ b, Disclaimer.render (Disclaimer.setShowFullInFooter b st)
          = Disclaimer.Splash
          ↔ Disclaimer.render st = Disclaimer.Splash).
Proof.
  unfold Disclaimer.mounted, Disclaimer.on_mount, Disclaimer.render,
    Disclaimer.handleAccept, Disclaimer.setShowFullInFooter. simpl.
  split_and!.
  - by case_bool_decide.
  - by destruct (Disclaimer.showFullInFooter st).
  - by rewrite lookup_insert_eq, bool_decide_true.
  - intros key Hkey. by rewrite lookup_insert_ne.
  - intros b.
    by destruct (Disclaimer.isAccepted st), b,
         (Disclaimer.showFullInFooter st).
Qed.

(** ** The translation resources *)

Section resources.

Implicit Types (resources : gmap string I18n.tree)
               (table : list (string * I18n.Translation)).

Lemma static_resources_built code b :
  I18n.static_resources !! code = Some b → I18n.built b.
Proof.
  unfold I18n.static_resources. simpl.
  intros Hb.
  repeat (apply lookup_insert_Some in Hb as [[_ Hb]|[_ Hb]];
          [rewrite <-Hb; unfold I18n.built; by eauto|]).
  by rewrite lookup_empty in Hb.
Qed.

Lemma add_translations_built resources table code b :
  (∀ code b, resources !! code = Some b → I18n.built b) →
  I18n.add_translations resources table !! code = Some b → I18n.built b.
Proof.
  unfold I18n.add_translations.
  revert resources. induction table as [|entry table IH];
    intros resources Hresources; simpl; [by apply Hresources|].
  apply IH. intros code' b'.
  intros Hb. apply lookup_insert_Some in Hb as [[_ Hb]|[_ Hb]].
  - rewrite <-Hb. unfold I18n.built. by eauto.
  - by eapply Hresources.
Qed.

Lemma resolve_in_dashboard title nav dashboard key path :
  I18n.resolve ("translation" :: "dashboard" :: key :: path)
    (I18n.bundle title nav (I18n.spread dashboard I18n.commonFeatures))
  = match I18n.commonFeatures !! key with
    | Some t => I18n.resolve path t
    | None => dashboard !! key ≫= I18n.resolve path
    end.
Proof.
  unfold I18n.bundle, I18n.spread. simpl.
  rewrite lookup_singleton_eq. simpl.
  rewrite lookup_insert_ne, lookup_insert_ne, lookup_insert_eq by done.
  destruct (I18n.commonFeatures !! key) as [t|] eqn:Hkey.
  - by rewrite (lookup_union_Some_l _ _ _ _ Hkey).
  - rewrite lookup_union_r by done. by destruct (dashboard !! key).
Qed.

Lemma resolve_at_root title nav dashboard key path :
  key ≠ "title" → key ≠ "nav" → key ≠ "dashboard" →
  I18n.resolve ("translation" :: key :: path)
    (I18n.bundle title nav dashboard) = None.
Proof.
  intros Htitle Hnav Hdashboard. unfold I18n.bundle. simpl.
  rewrite lookup_singleton_eq. simpl.
  by rewrite !lookup_insert_ne, lookup_empty.
Qed.

(** X22: In every language that [buildResources] can produce, whatever the
    table of translations, none of the keys the disclaimer component
    asks for (disclaimer.title and the like) names a resource: the
    disclaimer texts sit one level down, under dashboard, where the
    common part was spread.  There, and for dashboard.features too,
    every language has the common English text, which no translation
    can replace. *)
Theorem disclaimer_keys_name_nothing table code b :
  I18n.add_translations I18n.static_resources table !! code = Some b →
  (∀ key, key ∈ I18n.disclaimer_keys →
          I18n.resolve ("translation" :: key) b = None
          ∧ I18n.resolve ("translation" :: "dashboard" :: key) b
            = I18n.resolve key (I18n.Obj I18n.commonFeatures)
          ∧ is_Some (I18n.resolve key (I18n.Obj I18n.commonFeatures)))
  ∧ I18n.resolve ["translation"; "dashboard"; "features"] b
    = I18n.commonFeatures !! "features".
Proof.
  intros Hb.
  destruct (add_translations_built _ _ _ _ static_resources_built Hb)
    as (title & nav & dashboard & ->).
  split.
  - intros key Hkey. unfold I18n.disclaimer_keys in Hkey.
    repeat (apply elem_of_cons in Hkey as [->|Hkey]);
      [..|by apply elem_of_nil in Hkey];
      (split_and!;
       [by apply resolve_at_root
       |by rewrite resolve_in_dashboard
       |vm_compute; by eexists]).
  - by rewrite resolve_in_dashboard.
Qed.

Lemma disclaimer_keys_name_nothing_witness :
  I18n.resolve ["translation"; "disclaimer"; "title"]
  <$> (I18n.buildResources !! "hi") = Some None
  ∧ I18n.resolve ["translation"; "dashboard"; "disclaimer"; "title"]
    <$> (I18n.buildResources !! "hi")
    = Some (Some (I18n.Text "Medical Disclaimer")).
Proof.
  assert (∃ b, I18n.buildResources !! "hi" = Some b) as [b Hb]
    by (vm_compute; by eexists).
  rewrite Hb.
  destruct (disclaimer_keys_name_nothing I18n.indicTranslations "hi" b Hb)
    as [Hkeys _].
  destruct (Hkeys ["disclaimer"; "title"]) as (Hroot & Hdashboard & _);
    [by apply list_elem_of_here|].
  cbn -[I18n.resolve]. by rewrite Hroot, Hdashboard.
Defined.

(** X23: Looking a language up after the loop: the last entry of the table
    with that code decides, and a language the table does not mention
    keeps the bundle it had. *)
Theorem add_translations_lookup resources table code :
  I18n.add_translations resources table !! code
  = match last (filter (λ entry, entry.1 = code) table) with
    | Some entry =>
        Some (I18n.bundle (I18n.title entry.2) (I18n.nav entry.2)
                (I18n.spread (I18n.dashboard entry.2) I18n.commonFeatures))
    | None => resources !! code
    end.
Proof.
  unfold I18n.add_translations.
  revert resources. induction table as [|entry table IH];
    intros resources; simpl; [done|].
  rewrite IH, filter_cons. case_decide as Hcode.
  - destruct (filter _ table) as [|e l] eqn:Hfilter; simpl.
    + by rewrite <-Hcode, lookup_insert_eq.
    + change (last (entry :: e :: l)) with (last (e :: l)).
      destruct (last (e :: l)) eqn:Hlast; [done|].
      by apply last_None in Hlast.
  - destruct (last (filter _ table)); [done|]. by rewrite lookup_insert_ne.
Qed.

End resources.

(** ** The voice tab of the desk *)

Section desk_voice.

Variable server : Voice.upload → Http.reply (option Voice.VoiceTriage).
Implicit Types (s : DeskVoice.State) (e : DeskVoice.event).

(** Analyzing changes neither the recording nor the clock, and sends at
    most one upload, which states the duration of the moment. *)
Lemma handleVoiceTriage_upload s :
  let s' := state (after (DeskVoice.handleVoiceTriage server)
                     {| state := s; route := "/"; requests := [] |}) in
  DeskVoice.isRecording s' = DeskVoice.isRecording s
  ∧ DeskVoice.recordingDuration s' = DeskVoice.recordingDuration s
  ∧ DeskVoice.timer s' = DeskVoice.timer s
  ∧ (DeskVoice.uploads s' = DeskVoice.uploads s
     ∨ ∃ blob, DeskVoice.uploads s'
               = DeskVoice.uploads s ++ [DeskVoice.voice_request s blob]).
Proof.
  unfold after, DeskVoice.handleVoiceTriage, try_catch_finally, bind, when,
    Voice.fetch_form_with, json, throw, ret, get, modify.
  cbn -[lit DeskVoice.voice_request].
  destruct (DeskVoice.audioBlob s) as [blob|];
    cbn -[lit DeskVoice.voice_request]; [|by auto].
  destruct (server (DeskVoice.voice_request s blob))
    as [message|[] [message|data]];
    cbn -[lit DeskVoice.voice_request]; split_and!; by eauto.
Qed.

Lemma handle_keeps_inv e s :
  DeskVoice.enabled e s = true →
  DeskVoice.invariant s → DeskVoice.invariant (DeskVoice.handle server e s).
Proof.
  intros Henabled (Htimer & Hzero & Huploads).
  destruct e as [[message|]| | |blob| | | |l].
  7: { (* analyze *)
    simpl in Henabled.
    apply andb_true_iff in Henabled as [Henabled _].
    apply andb_true_iff in Henabled as [_ Hidle%negb_true_iff].
    pose proof (handleVoiceTriage_upload s) as (Hrec & Hduration & Ht & Hup).
    unfold DeskVoice.invariant, DeskVoice.handle, DeskVoice.timer_effect.
    set (s' := state (after (DeskVoice.handleVoiceTriage server) _)) in *.
    rewrite bool_decide_true by done.
    split_and!; [congruence|intros _; rewrite Hduration; by apply Hzero|].
    destruct Hup as [Hup | [blob Hup]]; rewrite Hup; [done|].
    apply Forall_app. split; [done|]. apply Forall_singleton.
    unfold DeskVoice.stated_duration, DeskVoice.voice_request. simpl.
    by rewrite (Hzero Hidle). }
  (* the other events: the microphone fails, recording starts, the
     interval fires, recording stops, the recorder hands over the
     recording, record again, a tab is clicked, the language changes *)
  all: destruct s as [recording duration blob' timer recorder stopping
                        loading result error language uploads];
    unfold DeskVoice.invariant, DeskVoice.handle, DeskVoice.timer_effect,
      DeskVoice.stopRecording in *;
    simpl in *; subst timer;
    destruct recording; try done; simpl in *;
    try (destruct recorder; simpl);
    split_and!; (done || by auto).
Qed.

Lemma run_keeps_inv events : DeskVoice.invariant (DeskVoice.run server events).
Proof.
  unfold DeskVoice.run.
  induction events as [|e events IH] using rev_ind;
    [by unfold DeskVoice.invariant; split_and!; [..|apply Forall_nil]|].
  rewrite foldl_app. simpl.
  destruct (DeskVoice.enabled e _) eqn:Henabled; [|done].
  by apply handle_keeps_inv.
Qed.

(** X15: Whatever happens on the voice tab of the desk, every upload it
    sends states the duration 0, however long the recording ran: the
    effect on [[isRecording]] resets the count when recording stops,
    before "Analyze Voice" can be pressed.  For the same reason the
    page reports "Duration: 0:00" for every finished recording. *)
Theorem desk_voice_always_states_zero events :
  Forall (λ req, DeskVoice.stated_duration req
                 = Some (Voice.FormText (lit "0")))
         (DeskVoice.uploads (DeskVoice.run server events))
  ∧ (DeskVoice.isRecording (DeskVoice.run server events) = false →
     Clock.formatDuration
       (DeskVoice.recordingDuration (DeskVoice.run server events))
     = lit "0:00")
  ∧ DeskVoice.timer (DeskVoice.run server events)
    = DeskVoice.isRecording (DeskVoice.run server events).
Proof.
  destruct (run_keeps_inv events) as (Htimer & Hzero & Huploads).
  split_and!; [done| |done].
  intros Hidle. by rewrite (Hzero Hidle).
Qed.

End desk_voice.

Lemma desk_voice_always_states_zero_witness :
  length (DeskVoice.uploads
            (DeskVoice.run
               (λ _, Http.Responded true
                       (inr (Some {| Voice.triage_result :=
                                       Some Sample.headache |})))
               [DeskVoice.StartRecording None; DeskVoice.Tick;
                DeskVoice.Tick; DeskVoice.Tick; DeskVoice.StopRecording;
                DeskVoice.OnStop
                  {| Voice.blob_type := "audio/webm";
                     Voice.blob_bytes := [26; 69; 223; 163]%N |};
                DeskVoice.AnalyzeVoice])) = 1%nat
  ∧ Forall (λ req, DeskVoice.stated_duration req
                   = Some (Voice.FormText (lit "0")))
      (DeskVoice.uploads
        (DeskVoice.run
           (λ _, Http.Responded true
                   (inr (Some {| Voice.triage_result :=
                                   Some Sample.headache |})))
           [DeskVoice.StartRecording None; DeskVoice.Tick; DeskVoice.Tick;
            DeskVoice.Tick; DeskVoice.StopRecording;
            DeskVoice.OnStop {| Voice.blob_type := "audio/webm";
                                Voice.blob_bytes := [26; 69; 223; 163]%N |};
            DeskVoice.AnalyzeVoice])).
Proof.
  split; [reflexivity|].
  destruct (desk_voice_always_states_zero
              (λ _, Http.Responded true
                      (inr (Some {| Voice.triage_result :=
                                   Some Sample.headache |})))
              [DeskVoice.StartRecording None; DeskVoice.Tick; DeskVoice.Tick;
               DeskVoice.Tick; DeskVoice.StopRecording;
               DeskVoice.OnStop {| Voice.blob_type := "audio/webm";
                                   Voice.blob_bytes := [26; 69; 223; 163]%N |};
               DeskVoice.AnalyzeVoice]) as [Huploads _].
  exact Huploads.
Defined.

(** ** The results page, read back *)

(** X9: On the page of a shown result the header says YES under "Emergency
    Detected" exactly when the call-108 alert is on the page, and the
    recommendation of the result is always there, once. *)
Theorem header_agrees_with_alert props r :
  Results.shows_result props = true →
  Results.triageResult props = Some r →
  (ResultsPage.emergency_indicator (Results.Results props) = Some "YES"
   ↔ Results.shows_emergency_alert (Results.Results props) = true)
  ∧ ResultsPage.recommendations (Results.Results props)
    = [TriageResult.action_required r].
Proof.
  intros Hshown Hprops. rewrite (shown_alert props r Hshown Hprops).
  page_of props Hshown; simplify_eq.
  all: unfold ResultsPage.emergency_indicator, ResultsPage.recommendations;
    rewrite !length_positive.
  all: destruct (TriageResult.red_flags r);
       destruct (TriageResult.potential_risks r);
       destruct (TriageResult.emergency_detected r);
       by destruct (Results.facilities props).
Qed.

Lemma header_agrees_with_alert_witness :
  ResultsPage.emergency_indicator
    (Results.Results (Sample.showing Sample.flagged [])) ≠ Some "YES"
  ∧ ResultsPage.recommendations
      (Results.Results (Sample.showing Sample.flagged []))
    = [lit "Visit a health center"].
Proof.
  destruct (header_agrees_with_alert (Sample.showing Sample.flagged [])
              Sample.flagged eq_refl eq_refl) as [Hheader Hrec].
  split; [|exact Hrec].
  intros Hyes. by apply Hheader in Hyes.
Defined.

(** ** Submitting again *)

(** X6: Against a backend that answers the same way, submitting the same
    symptoms a second time leaves the state exactly as the first
    submission left it. *)
Theorem resubmission_changes_nothing net symptoms location w :
  state (after (App.handleTriageSubmit net symptoms location)
           (after (App.handleTriageSubmit net symptoms location) w))
  = state (after (App.handleTriageSubmit net symptoms location) w).
Proof.
  run_handler.
  on_reply (Http.triage_text net) (App.triage_request symptoms location);
    try done.
  destruct (truthy_opt location); cbn -[lit]; [|done].
  on_reply (Http.facilities net) (App.facilities_request location); done.
Qed.

(** ** The recorder of the voice page *)

Section recorder.

Import VoiceRecorder.
Implicit Types (s : State) (events : list event).

(** What a run without a stop that goes through keeps. *)
Lemma run_keeps_recording events s :
  isRecording s = true → timer s = true →
  Forall (λ e, e ≠ ClickStop false) events →
  isRecording (run events s) = true
  ∧ timer (run events s) = true
  ∧ (pending (run events s) ≤ pending s)%nat
  ∧ (pending s = 0 →
     recordingTime (run events s) = recordingTime s + ticks events)%nat.
Proof.
  intros Hrecording Htimer Hevents. revert s Hrecording Htimer.
  unfold run.
  induction Hevents as [|e events He _ IH]; intros s Hrecording Htimer;
    simpl; [split_and!; [done..|lia]|].
  destruct e as [|outcome| |[]|blob|l]; simpl.
  - (* the microphone button is not on the page *)
    rewrite Hrecording. by apply IH.
  - (* a waiting call settles *)
    case_bool_decide as Hpending; [|by apply IH].
    destruct (IH (startRecording_settled outcome s))
      as (Hrec & Ht & Hp & _); [by destruct outcome..|].
    split_and!; [done..| |lia].
    etrans; [exact Hp|]. destruct outcome; simpl; lia.
  - (* an interval fires *)
    rewrite Htimer. simpl.
    destruct (IH (tick s)) as (Hrec & Ht & Hp & Htime); [done..|].
    split_and!; [done..|]. intros Hnone. rewrite Htime by done. simpl. lia.
  - (* a stop that throws *)
    rewrite Hrecording. unfold stopRecording.
    destruct (recorder s && isRecording s); by apply IH.
  - (* a stop that goes through *)
    done.
  - (* a recorder stops *)
    destruct (recorder s); [|by apply IH].
    destruct (IH (onstop blob s)) as (Hrec & Ht & Hp & Htime); [done..|].
    by split_and!.
  - (* the language cannot be changed *)
    rewrite Hrecording. by apply IH.
Qed.

(** While an interval runs, the clock counts each of its ticks. *)
Lemma running_interval_counts n s :
  enabled Tick s = true →
  recordingTime (run (replicate n Tick) s) = (recordingTime s + n)%nat.
Proof.
  unfold run. revert s.
  induction n as [|n IH]; intros s Henabled; simpl; [lia|].
  simpl in Henabled. rewrite Henabled, IH by done. simpl. lia.
Qed.

End recorder.

(** X20: Nothing but the stop button ends a recording on the voice page
    while the page is open: through any events without a click on stop
    that goes through, [isRecording] stays true and the interval in
    [timerRef] goes on; no limit of time stops it.  When no call of
    [startRecording] is waiting, the clock counts every tick of an
    interval from where it was. *)
Theorem recording_goes_on_until_stopped events s :
  VoiceRecorder.isRecording s = true →
  VoiceRecorder.timer s = true →
  Forall (λ e, e ≠ VoiceRecorder.ClickStop false) events →
  VoiceRecorder.isRecording (VoiceRecorder.run events s) = true
  ∧ VoiceRecorder.timer (VoiceRecorder.run events s) = true
  ∧ (VoiceRecorder.pending s = 0%nat →
     VoiceRecorder.recordingTime (VoiceRecorder.run events s)
     = (VoiceRecorder.recordingTime s + VoiceRecorder.ticks events)%nat).
Proof.
  intros Hrecording Htimer Hevents.
  destruct (run_keeps_recording events s Hrecording Htimer Hevents)
    as (Hrec & Ht & _ & Htime).
  by split_and!.
Qed.

Lemma recording_goes_on_until_stopped_witness :
  VoiceRecorder.isRecording
    (VoiceRecorder.run (replicate 45 VoiceRecorder.Tick)
       (VoiceRecorder.run
          [VoiceRecorder.ClickStart;
           VoiceRecorder.StartSettles VoiceRecorder.Started]
          VoiceRecorder.initial)) = true
  ∧ VoiceRecorder.recordingTime
      (VoiceRecorder.run (replicate 45 VoiceRecorder.Tick)
         (VoiceRecorder.run
            [VoiceRecorder.ClickStart;
             VoiceRecorder.StartSettles VoiceRecorder.Started]
            VoiceRecorder.initial)) = 45%nat.
Proof.
  destruct (recording_goes_on_until_stopped
              (replicate 45 VoiceRecorder.Tick)
              (VoiceRecorder.run
                 [VoiceRecorder.ClickStart;
                  VoiceRecorder.StartSettles VoiceRecorder.Started]
                 VoiceRecorder.initial)
              eq_refl eq_refl) as (Hrecording & _ & Htime).
  - apply Forall_replicate. discriminate.
  - split; [exact Hrecording|]. by rewrite Htime.
Defined.

(** X24: A call of [startRecording] that settles while a recording runs
    starts the clock again from 0 and leaves the interval of the
    running recording behind, out of the reach of [timerRef].  A click
    on stop then clears the new interval only: [isRecording] is false,
    and [recordingTime], which the page shows beside "Recording
    completed", goes on counting, one for every tick of the interval
    left behind. *)
Theorem late_start_outlives_stop s n :
  VoiceRecorder.isRecording s = true →
  VoiceRecorder.timer s = true →
  (0 < VoiceRecorder.pending s)%nat →
  let restarted :=
    VoiceRecorder.run [VoiceRecorder.StartSettles VoiceRecorder.Started] s in
  let stopped :=
    VoiceRecorder.run [VoiceRecorder.ClickStop false] restarted in
  VoiceRecorder.isRecording restarted = true
  ∧ VoiceRecorder.recordingTime restarted = 0%nat
  ∧ VoiceRecorder.stray restarted = S (VoiceRecorder.stray s)
  ∧ VoiceRecorder.isRecording stopped = false
  ∧ VoiceRecorder.timer stopped = false
  ∧ VoiceRecorder.enabled VoiceRecorder.Tick stopped = true
  ∧ VoiceRecorder.recordingTime
      (VoiceRecorder.run (replicate n VoiceRecorder.Tick) stopped) = n.
Proof.
  intros Hrecording Htimer Hpending restarted stopped.
  assert (restarted
          = VoiceRecorder.startRecording_settled VoiceRecorder.Started s)
    as Hrestarted.
  { unfold restarted, VoiceRecorder.run. simpl.
    by rewrite bool_decide_true. }
  assert (stopped = VoiceRecorder.stopRecording false restarted) as Hstopped.
  { unfold stopped, VoiceRecorder.run. simpl.
    by rewrite Hrestarted. }
  assert (VoiceRecorder.enabled VoiceRecorder.Tick stopped = true)
    as Henabled.
  { rewrite Hstopped, Hrestarted. simpl. rewrite Htimer.
    apply bool_decide_eq_true. lia. }
  rewrite running_interval_counts by done.
  rewrite Hstopped, Hrestarted. simpl. rewrite Htimer.
  split_and!; [done|done|lia|done|done| |done].
  apply bool_decide_eq_true. lia.
Qed.

Lemma late_start_outlives_stop_witness :
  VoiceRecorder.isRecording
    (VoiceRecorder.run
       [VoiceRecorder.ClickStart; VoiceRecorder.ClickStart;
        VoiceRecorder.StartSettles VoiceRecorder.Started;
        VoiceRecorder.Tick; VoiceRecorder.Tick;
        VoiceRecorder.StartSettles VoiceRecorder.Started;
        VoiceRecorder.ClickStop false]
       VoiceRecorder.initial) = false
  ∧ VoiceRecorder.recordingTime
      (VoiceRecorder.run
         (replicate 7 VoiceRecorder.Tick)
         (VoiceRecorder.run
            [VoiceRecorder.ClickStart; VoiceRecorder.ClickStart;
             VoiceRecorder.StartSettles VoiceRecorder.Started;
             VoiceRecorder.Tick; VoiceRecorder.Tick;
             VoiceRecorder.StartSettles VoiceRecorder.Started;
             VoiceRecorder.ClickStop false]
            VoiceRecorder.initial)) = 7%nat.
Proof.
  destruct (late_start_outlives_stop
              (VoiceRecorder.run
                 [VoiceRecorder.ClickStart; VoiceRecorder.ClickStart;
                  VoiceRecorder.StartSettles VoiceRecorder.Started;
                  VoiceRecorder.Tick; VoiceRecorder.Tick]
                 VoiceRecorder.initial)
              7%nat eq_refl eq_refl)
    as (_ & _ & _ & Hstopped & _ & _ & Hclock); [simpl; lia|].
  split; [exact Hstopped|exact Hclock].
Defined.
